(** * rislingo backend: session lifecycle, phrase repository, Task1 archive

    A shallow embedding of
      - [backend/routers/auth.py]
      - [backend/routers/task1_archive.py]
      - [backend/repositories/phrase_repository.py]
      - [backend/database.py] (the request-scoped ORM session)
    followed by the properties of the specification that concern them.

    The relational store is a record of tables, each table a list of rows in
    storage order.  The ORM session is a unit of work over it: [add],
    [delete] and attribute assignment queue changes, [commit] flushes them,
    [rollback] discards them.  Every database round trip (query, commit,
    refresh) may raise; which one does is decided by a fault schedule carried
    in the session, so that the [try]/[except] paths of the routers can be
    exercised. *)

From Stdlib Require Import ZArith NArith List String Ascii Bool Lia.
From Stdlib Require Import Permutation Sorted DecimalString.
Import ListNotations.

Local Open Scope string_scope.
Local Open Scope list_scope.
Local Open Scope Z_scope.

(** ** Values *)

(** [uuid.UUID]: compared through its 128-bit integer. *)
Definition uuid := N.

(** Naive UTC [datetime]: microseconds since the epoch. *)
Definition datetime := Z.

(** [timedelta(days=d)] in microseconds. *)
Definition timedelta_days (d : Z) : Z := d * 86400 * 1000000.

(** ** Rows

    [models.py] is not among the sources.  The four row types below carry
    the attributes the data model of the specification lists, which are
    also the ones the routers, the repository and [test_full_flow.py] read
    and write. *)

(** Modelled from the spec: the [User] row of [models.py]. *)
Module User.
Record t := mk { id : uuid; user_identifier : string }.
End User.

(** Modelled from the spec: the [Session] row of [models.py] (imported as
    [DBSession] by the auth router). *)
Module DBSession.
Record t := mk
  { id : uuid; user_id : uuid; session_token : string; expires_at : datetime }.
End DBSession.

(** Modelled from the spec: the [SavedPhrase] row of [models.py]. *)
Module SavedPhrase.
Record t := mk
  { id : uuid; user_id : uuid; phrase : string; context : string;
    category : string; is_mastered : bool; created_at : datetime }.
End SavedPhrase.

(** Modelled from the spec: the [PracticeSession] row of [models.py];
    [user_id] is nullable. *)
Module PracticeSession.
Record t := mk
  { id : uuid; user_id : option uuid; task_type : string;
    reading_text : option string; lecture_script : option string;
    question : string; user_transcript : option string;
    overall_score : option Z; delivery_score : option Z;
    language_use_score : option Z; topic_dev_score : option Z;
    feedback_json : option string; created_at : datetime }.
End PracticeSession.

(** ** The store *)

Record Tables := mkTables
  { users : list User.t;
    sessions : list DBSession.t;
    saved_phrases : list SavedPhrase.t;
    practice_sessions : list PracticeSession.t }.

(** Changes queued in the unit of work until the next flush. *)
Inductive change :=
| AddUser (u : User.t)
| AddSession (s : DBSession.t)
| DeleteSession (s : DBSession.t)
| AddPhrase (p : SavedPhrase.t)
| DeletePhrase (p : SavedPhrase.t)
| SetMastered (p : SavedPhrase.t) (is_mastered : bool).

(** The ORM session of [database.get_db]: the tables as the transaction sees
    them, the queued changes, and the outcome of the coming round trips
    ([Some msg]: that round trip raises with message [msg]; an exhausted
    schedule means no further fault). *)
Record Db := mkDb
  { tables : Tables;
    pending : list change;
    faults : list (option string) }.

(** [SessionLocal()]: a new session, nothing queued. *)
Definition SessionLocal (t : Tables) (fl : list (option string)) : Db :=
  mkDb t [] fl.

(** ** Exceptions and the state-and-exception monad *)

Inductive exn :=
| HTTPException (status_code : Z) (detail : string)
| Exception (msg : string).

(** [str(e)]; Starlette renders an [HTTPException] as ["<status>: <detail>"]. *)
Definition str_exn (e : exn) : string :=
  match e with
  | Exception msg => msg
  | HTTPException sc d => (NilZero.string_of_int (Z.to_int sc) ++ ": " ++ d)%string
  end.

Inductive result (A : Type) :=
| Ok (a : A)
| Raise (e : exn).
Arguments Ok {A} a.
Arguments Raise {A} e.

Definition M (A : Type) : Type := Db -> result A * Db.

Definition ret {A} (a : A) : M A := fun db => (Ok a, db).

Definition raise {A} (e : exn) : M A := fun db => (Raise e, db).

Definition bind {A B} (c : M A) (k : A -> M B) : M B :=
  fun db =>
    match c db with
    | (Ok a, db') => k a db'
    | (Raise e, db') => (Raise e, db')
    end.

(** [try: body except <e>: handler e]; the handler runs in the state the
    body left behind. *)
Definition try_except {A} (body : M A) (handler : exn -> M A) : M A :=
  fun db =>
    match body db with
    | (Ok a, db') => (Ok a, db')
    | (Raise e, db') => handler e db'
    end.

Declare Scope py_scope.
Delimit Scope py_scope with py.
Notation "x <- c1 ;; c2" := (bind c1 (fun x => c2))
  (at level 100, c1 at next level, right associativity) : py_scope.
Notation "c1 ;; c2" := (bind c1 (fun _ => c2))
  (at level 100, right associativity) : py_scope.
Local Open Scope py_scope.

(** ** Flushing the unit of work *)

Definition has_pk {R} (pk : R -> uuid) (i : uuid) (r : R) : bool :=
  N.eqb (pk r) i.

(** Modelled from the spec: [id] is the unique identifier (primary key) of
    every table, so an INSERT is refused when the key is taken. *)
Definition insert_row {R} (pk : R -> uuid) (r : R) (tbl : list R)
  : option (list R) :=
  if existsb (has_pk pk (pk r)) tbl then None else Some (tbl ++ [r]).

(** DELETE ... WHERE id = i *)
Definition delete_row {R} (pk : R -> uuid) (i : uuid) (tbl : list R) : list R :=
  filter (fun r => negb (has_pk pk i r)) tbl.

Definition set_is_mastered (b : bool) (p : SavedPhrase.t) : SavedPhrase.t :=
  SavedPhrase.mk (SavedPhrase.id p) (SavedPhrase.user_id p)
    (SavedPhrase.phrase p) (SavedPhrase.context p) (SavedPhrase.category p)
    b (SavedPhrase.created_at p).

(** UPDATE saved_phrases SET is_mastered = b WHERE id = i *)
Definition update_is_mastered (i : uuid) (b : bool) (tbl : list SavedPhrase.t)
  : list SavedPhrase.t :=
  map (fun p => if has_pk SavedPhrase.id i p then set_is_mastered b p else p) tbl.

Definition apply_change (c : change) (t : Tables) : option Tables :=
  match c with
  | AddUser u =>
      option_map
        (fun us => mkTables us (sessions t) (saved_phrases t) (practice_sessions t))
        (insert_row User.id u (users t))
  | AddSession s =>
      option_map
        (fun ss => mkTables (users t) ss (saved_phrases t) (practice_sessions t))
        (insert_row DBSession.id s (sessions t))
  | DeleteSession s =>
      Some (mkTables (users t) (delete_row DBSession.id (DBSession.id s) (sessions t))
              (saved_phrases t) (practice_sessions t))
  | AddPhrase p =>
      option_map
        (fun ps => mkTables (users t) (sessions t) ps (practice_sessions t))
        (insert_row SavedPhrase.id p (saved_phrases t))
  | DeletePhrase p =>
      Some (mkTables (users t) (sessions t)
              (delete_row SavedPhrase.id (SavedPhrase.id p) (saved_phrases t))
              (practice_sessions t))
  | SetMastered p b =>
      Some (mkTables (users t) (sessions t)
              (update_is_mastered (SavedPhrase.id p) b (saved_phrases t))
              (practice_sessions t))
  end.

Fixpoint flush (cs : list change) (t : Tables) : option Tables :=
  match cs with
  | [] => Some t
  | c :: cs' =>
      match apply_change c t with
      | Some t' => flush cs' t'
      | None => None
      end
  end.

(** ** Session primitives *)

(** One database round trip: consumes the next entry of the schedule. *)
Definition roundtrip : M unit :=
  fun db =>
    match faults db with
    | [] => (Ok tt, db)
    | None :: fl => (Ok tt, mkDb (tables db) (pending db) fl)
    | Some msg :: fl => (Raise (Exception msg), mkDb (tables db) (pending db) fl)
    end.

(** [db.query(R).filter(cond).first()] *)
Definition query_first {R} (table : Tables -> list R) (cond : R -> bool)
  : M (option R) :=
  roundtrip ;; fun db => (Ok (find cond (table (tables db))), db).

(** [q.count()] for a query [q] over the tables. *)
Definition query_count {R} (q : Tables -> list R) : M Z :=
  roundtrip ;; fun db => (Ok (Z.of_nat (List.length (q (tables db)))), db).

(** [q.all()] *)
Definition query_all {R} (q : Tables -> list R) : M (list R) :=
  roundtrip ;; fun db => (Ok (q (tables db)), db).

(** [db.add(obj)], [db.delete(obj)], and a tracked attribute assignment. *)
Definition enqueue (c : change) : M unit :=
  fun db => (Ok tt, mkDb (tables db) (pending db ++ [c]) (faults db)).

(** [db.commit()]: flush, then COMMIT.  When it raises, nothing reaches the
    tables and the queued changes stay in the session until [rollback]. *)
Definition commit : M unit :=
  roundtrip ;;
  fun db =>
    match flush (pending db) (tables db) with
    | Some t' => (Ok tt, mkDb t' [] (faults db))
    | None => (Raise (Exception "IntegrityError"), db)
    end.

(** [db.rollback()] *)
Definition rollback : M unit :=
  fun db => (Ok tt, mkDb (tables db) [] (faults db)).

(** [db.refresh(obj)]: reload the row with [obj]'s primary key. *)
Definition refresh {R} (table : Tables -> list R) (pk : R -> uuid) (obj : R)
  : M R :=
  roundtrip ;;
  fun db =>
    match find (has_pk pk (pk obj)) (table (tables db)) with
    | Some r => (Ok r, db)
    | None => (Raise (Exception "InvalidRequestError"), db)
    end.

(** ** Query building blocks *)

(** [ORDER BY key DESC].  SQL leaves the relative order of rows with equal
    keys to the store; this insertion sort keeps them in storage order, one
    of the orders the store may give.  Properties that say where a row
    stands in a result therefore assume distinct keys, for which the order
    is the only one possible (see [newest_first_unique]). *)
Fixpoint insert_desc {R} (key : R -> Z) (x : R) (l : list R) : list R :=
  match l with
  | [] => [x]
  | y :: l' =>
      if key y <=? key x then x :: y :: l' else y :: insert_desc key x l'
  end.

Definition order_by_desc {R} (key : R -> Z) (l : list R) : list R :=
  fold_right (insert_desc key) [] l.

(** [q.offset(offset).limit(limit)] *)
Definition offset_limit {R} (offset limit : Z) (l : list R) : list R :=
  firstn (Z.to_nat limit) (skipn (Z.to_nat offset) l).

(** LIMIT and OFFSET are 64-bit integers in the store ([database.py] binds
    the engine to PostgreSQL), and neither may be negative. *)
Definition int64_max : Z := 9223372036854775807.

Definition fits_limit_offset (offset limit : Z) : bool :=
  (0 <=? offset) && (offset <=? int64_max)
  && (0 <=? limit) && (limit <=? int64_max).

(** [q.offset(offset).limit(limit).all()]: the statement fails in the store
    when LIMIT or OFFSET is out of its range. *)
Definition query_window {R} (q : Tables -> list R) (offset limit : Z)
  : M (list R) :=
  roundtrip ;;
  fun db =>
    if fits_limit_offset offset limit
    then (Ok (offset_limit offset limit (q (tables db))), db)
    else (Raise (Exception "DataError"), db).

(** ** [repositories/phrase_repository.py] *)

Module PhraseRepository.

(** [new_id] and [now] are the values the [id] and [created_at] column
    defaults produce for the new row. *)
Definition save_phrase (new_id : uuid) (now : datetime)
    (user_id : uuid) (phrase context category : string) : M SavedPhrase.t :=
  let saved_phrase :=
    SavedPhrase.mk new_id user_id phrase context category false now in
  enqueue (AddPhrase saved_phrase) ;;
  commit ;;
  refresh saved_phrases SavedPhrase.id saved_phrase.

Definition get_phrase (phrase_id : uuid) : M (option SavedPhrase.t) :=
  query_first saved_phrases (has_pk SavedPhrase.id phrase_id).

Definition user_phrases_query (user_id : uuid) (t : Tables)
  : list SavedPhrase.t :=
  order_by_desc SavedPhrase.created_at
    (filter (fun p => N.eqb (SavedPhrase.user_id p) user_id) (saved_phrases t)).

Definition get_user_phrases (user_id : uuid) : M (list SavedPhrase.t) :=
  query_all (user_phrases_query user_id).

Definition delete_phrase (phrase_id : uuid) : M bool :=
  phrase <- get_phrase phrase_id ;;
  match phrase with
  | Some p => enqueue (DeletePhrase p) ;; commit ;; ret true
  | None => ret false
  end.

Definition update_mastered_status (phrase_id : uuid) (is_mastered : bool)
  : M (option SavedPhrase.t) :=
  phrase <- get_phrase phrase_id ;;
  match phrase with
  | Some p =>
      enqueue (SetMastered p is_mastered) ;;
      commit ;;
      p' <- refresh saved_phrases SavedPhrase.id p ;;
      ret (Some p')
  | None => ret None
  end.

End PhraseRepository.

(** ** Request and response models *)

Module SimpleLoginRequest.
Record t := mk { user_id : string }.
End SimpleLoginRequest.

Module SimpleLoginResponse.
Record t := mk { session_token : string; user_id : string }.
End SimpleLoginResponse.

Module VerifyResponse.
Record t := mk { valid : bool; user_id : string; user_identifier : string }.
End VerifyResponse.

Module Task1QuestionResponse.
Record t := mk
  { id : string; question : string; user_transcript : option string;
    overall_score : option Z; created_at : string }.
End Task1QuestionResponse.

Module Task1ArchiveResponse.
Record t := mk { questions : list Task1QuestionResponse.t; total : Z }.
End Task1ArchiveResponse.

(** The [Query(...)] bounds declared on [limit] and [offset]. *)
Definition pagination_in_range (limit offset : Z) : bool :=
  (1 <=? limit) && (limit <=? 100) && (0 <=? offset).

Section Routers.

(** Standard-library conversions the routers call: [uuid.UUID(s)]
    ([None] when it raises [ValueError]), [str(u)] for a UUID, and
    [datetime.isoformat()]. *)
Variable UUID : string -> option uuid.
Variable str_uuid : uuid -> string.
Variable isoformat : datetime -> string.

(** *** [routers/auth.py] *)

(** [new_id]: the value the [id] column default gives a new user. *)
Definition create_or_get_user (new_id : uuid) (user_identifier : string)
  : M User.t :=
  user <- query_first users
            (fun u => String.eqb (User.user_identifier u) user_identifier) ;;
  match user with
  | Some u => ret u
  | None =>
      let u := User.mk new_id user_identifier in
      enqueue (AddUser u) ;;
      commit ;;
      refresh users User.id u
  end.

(** [session_token] is the outcome of [generate_session_token()],
    [utcnow] of [datetime.utcnow()], [new_user_id] and [new_session_id]
    the ids the column defaults give to new rows. *)
Definition simple_login (new_user_id new_session_id : uuid)
    (session_token : string) (utcnow : datetime)
    (request : SimpleLoginRequest.t) : M SimpleLoginResponse.t :=
  try_except
    (user <- create_or_get_user new_user_id (SimpleLoginRequest.user_id request) ;;
     let expires_at := utcnow + timedelta_days 30 in
     let db_session :=
       DBSession.mk new_session_id (User.id user) session_token expires_at in
     enqueue (AddSession db_session) ;;
     commit ;;
     _ <- refresh sessions DBSession.id db_session ;;
     ret (SimpleLoginResponse.mk session_token (str_uuid (User.id user))))
    (fun e =>
       rollback ;;
       raise (HTTPException 500 ("Login failed: " ++ str_exn e)%string)).

Definition get_current_user (session_token : option string) (utcnow : datetime)
  : M (option User.t) :=
  match session_token with
  | None => ret None
  | Some "" => ret None
  | Some tok =>
      db_session <- query_first sessions
                      (fun s => String.eqb (DBSession.session_token s) tok) ;;
      match db_session with
      | None => ret None
      | Some s =>
          if DBSession.expires_at s <? utcnow then
            enqueue (DeleteSession s) ;;
            commit ;;
            ret None
          else
            query_first users
              (fun u => N.eqb (User.id u) (DBSession.user_id s))
      end
  end.

Definition verify_session (session_token : string) (utcnow : datetime)
  : M VerifyResponse.t :=
  user <- get_current_user (Some session_token) utcnow ;;
  match user with
  | None => raise (HTTPException 401 "Invalid or expired session")
  | Some u =>
      ret (VerifyResponse.mk true (str_uuid (User.id u)) (User.user_identifier u))
  end.

Definition logout (session_token : string) : M string :=
  db_session <- query_first sessions
                  (fun s => String.eqb (DBSession.session_token s) session_token) ;;
  match db_session with
  | Some s => enqueue (DeleteSession s) ;; commit ;; ret "Logged out successfully"
  | None => ret "Logged out successfully"
  end.

(** *** [routers/task1_archive.py]

    The [logger] calls neither touch the store nor the response and are
    left out. *)

Definition to_response (session : PracticeSession.t) : Task1QuestionResponse.t :=
  Task1QuestionResponse.mk
    (str_uuid (PracticeSession.id session))
    (PracticeSession.question session)
    (PracticeSession.user_transcript session)
    (PracticeSession.overall_score session)
    (isoformat (PracticeSession.created_at session)).

(** [PracticeSession.user_id == uid] in SQL: never true on NULL. *)
Definition owned_by (uid : uuid) (s : PracticeSession.t) : bool :=
  match PracticeSession.user_id s with
  | Some o => N.eqb o uid
  | None => false
  end.

Definition is_task1 (s : PracticeSession.t) : bool :=
  String.eqb (PracticeSession.task_type s) "task1".

(** The query of lines 76-79, as a function of the tables. *)
Definition task1_query (uid : uuid) (t : Tables) : list PracticeSession.t :=
  order_by_desc PracticeSession.created_at
    (filter (fun s => owned_by uid s && is_task1 s) (practice_sessions t)).

(** [except HTTPException: raise / except Exception: raise 500]. *)
Definition boundary {A} (detail : string) (e : exn) : M A :=
  match e with
  | HTTPException _ _ => raise e
  | Exception _ => raise (HTTPException 500 detail)
  end.

Definition get_task1_questions (user_id : string) (limit offset : Z)
  : M Task1ArchiveResponse.t :=
  try_except
    (user <- query_first users
               (fun u => String.eqb (User.user_identifier u) user_id) ;;
     match user with
     | None => raise (HTTPException 404 "User not found")
     | Some user =>
         let query := task1_query (User.id user) in
         total <- query_count query ;;
         sessions <- query_window query offset limit ;;
         let questions := map to_response sessions in
         ret (Task1ArchiveResponse.mk questions total)
     end)
    (boundary "Failed to fetch Task1 questions").

Definition get_task1_question (question_id : string) (user_id : string)
  : M Task1QuestionResponse.t :=
  try_except
    (match UUID question_id with
     | None => raise (HTTPException 400 "Invalid question ID format")
     | Some question_uuid =>
         user <- query_first users
                   (fun u => String.eqb (User.user_identifier u) user_id) ;;
         match user with
         | None => raise (HTTPException 404 "User not found")
         | Some user =>
             session <- query_first practice_sessions
                          (fun s => has_pk PracticeSession.id question_uuid s
                                    && owned_by (User.id user) s
                                    && is_task1 s) ;;
             match session with
             | None => raise (HTTPException 404 "Task1 question not found")
             | Some session => ret (to_response session)
             end
         end
     end)
    (boundary "Failed to fetch Task1 question").

End Routers.

(** ** Store invariants the schema declares *)

(** A session token identifies at most one Session row. *)
Definition token_unique (t : Tables) (s : DBSession.t) : Prop :=
  forall s', In s' (sessions t) ->
             DBSession.session_token s' = DBSession.session_token s -> s' = s.

(** [i] is not yet a primary key of the table. *)
Definition fresh_pk {R} (pk : R -> uuid) (i : uuid) (tbl : list R) : Prop :=
  forall r, In r tbl -> pk r <> i.

(** The user a [user_identifier] resolves to: the row [.first()] returns. *)
Definition resolve_user (t : Tables) (user_identifier : string) : option User.t :=
  find (fun u => String.eqb (User.user_identifier u) user_identifier) (users t).

(** Most recent first. *)
Definition newest_first {R} (key : R -> Z) (l : list R) : Prop :=
  StronglySorted (fun a b => key b <= key a) l.

(** ** Canonical instances of the conversions, for closed examples *)

Module Examples.

Definition hex_value (c : ascii) : option N :=
  let n := N_of_ascii c in
  if (48 <=? n)%N && (n <=? 57)%N then Some (n - 48)%N
  else if (97 <=? n)%N && (n <=? 102)%N then Some (n - 87)%N
  else if (65 <=? n)%N && (n <=? 70)%N then Some (n - 55)%N
  else None.

Fixpoint parse_hex (s : string) (acc : N) : option N :=
  match s with
  | EmptyString => Some acc
  | String c s' =>
      match hex_value c with
      | Some d => parse_hex s' (16 * acc + d)%N
      | None => None
      end
  end.

Fixpoint drop_hyphens (s : string) : string :=
  match s with
  | EmptyString => EmptyString
  | String c s' =>
      if Ascii.eqb c "-" then drop_hyphens s' else String c (drop_hyphens s')
  end.

(** [uuid.UUID(s)] on hyphenated or plain 32-digit hexadecimal text, the
    forms the examples use; anything else is rejected here. *)
Definition UUID (s : string) : option uuid :=
  let h := drop_hyphens s in
  if Nat.eqb (String.length h) 32 then parse_hex h 0%N else None.

Definition hex_digit (d : N) : ascii :=
  if (d <? 10)%N then ascii_of_N (48 + d) else ascii_of_N (87 + d).

Fixpoint hex_digits (n : nat) (v : N) (acc : string) : string :=
  match n with
  | O => acc
  | S n' => hex_digits n' (v / 16)%N (String (hex_digit (v mod 16)%N) acc)
  end.

(** [str(u)]: 8-4-4-4-12 lower-case hexadecimal. *)
Definition str_uuid (u : uuid) : string :=
  let h := hex_digits 32 u EmptyString in
  (substring 0 8 h ++ "-" ++ substring 8 4 h ++ "-" ++ substring 12 4 h
     ++ "-" ++ substring 16 4 h ++ "-" ++ substring 20 12 h)%string.

(** Timestamps are rendered as their microsecond count. *)
Definition isoformat (d : datetime) : string :=
  NilZero.string_of_int (Z.to_int d).

Definition alice : User.t := User.mk 1%N "alice".
Definition bob : User.t := User.mk 2%N "bob".

Definition alice_session : DBSession.t :=
  DBSession.mk 10%N 1%N "tok-alice" 1000.

(** A session whose owner row is gone. *)
Definition orphan_session : DBSession.t :=
  DBSession.mk 11%N 9%N "tok-orphan" 5000.

Definition task1_of (i : uuid) (owner : option uuid) (ty : string)
    (at_ : datetime) : PracticeSession.t :=
  PracticeSession.mk i owner ty None None "Describe your hometown."
    None None None None None None at_.

Definition phrase_of (i owner : uuid) (text : string) (m : bool)
    (at_ : datetime) : SavedPhrase.t :=
  SavedPhrase.mk i owner text "in a summary" "transition" m at_.

Definition empty_tables : Tables := mkTables [] [] [] [].

Definition tables0 : Tables :=
  mkTables
    [alice; bob]
    [alice_session; orphan_session]
    [phrase_of 20%N 1%N "on the other hand" false 100;
     phrase_of 21%N 2%N "for instance" false 200;
     phrase_of 22%N 1%N "to sum up" true 300]
    [task1_of 30%N (Some 1%N) "task1" 100;
     task1_of 31%N (Some 2%N) "task1" 200;
     task1_of 32%N (Some 1%N) "task3" 300;
     task1_of 33%N (Some 1%N) "task1" 400;
     task1_of 34%N None "task1" 500].

(** The users of [tables0] with no practice session at all. *)
Definition empty_users_only : Tables := mkTables [alice; bob] [] [] [].


(** The canonical text of practice session 31 (owned by bob) and of an
    id no row carries. *)
Definition qid_31 : string := "00000000-0000-0000-0000-00000000001f".
Definition qid_absent : string := "00000000-0000-0000-0000-0000000000ff".

End Examples.

(** ** Vocabulary of the further properties *)

(** A computation that leaves tables and queue alone. *)
Definition read_only {A} (c : M A) : Prop :=
  forall db r db', c db = (r, db') ->
                   tables db' = tables db /\ pending db' = pending db.

(** The Session row [simple_login] writes. *)
Definition login_session (new_session_id : uuid) (u : User.t)
    (session_token : string) (utcnow : datetime) : DBSession.t :=
  DBSession.mk new_session_id (User.id u) session_token
    (utcnow + timedelta_days 30).

Definition with_users (us : list User.t) (t : Tables) : Tables :=
  mkTables us (sessions t) (saved_phrases t) (practice_sessions t).

Definition with_sessions (ss : list DBSession.t) (t : Tables) : Tables :=
  mkTables (users t) ss (saved_phrases t) (practice_sessions t).

Definition with_saved_phrases (ps : list SavedPhrase.t) (t : Tables) : Tables :=
  mkTables (users t) (sessions t) ps (practice_sessions t).

(** The Session row [.first()] returns for a token. *)
Definition session_of_token (t : Tables) (tok : string) : option DBSession.t :=
  find (fun s => String.eqb (DBSession.session_token s) tok) (sessions t).

(** * Properties *)

(** ** Lists, lookups and ordering *)

Lemma find_by_token (t : Tables) (s : DBSession.t) :
  In s (sessions t) -> token_unique t s ->
  find (fun s' => String.eqb (DBSession.session_token s')
                    (DBSession.session_token s)) (sessions t) = Some s.
Proof.
  intros Hin Huniq.
  destruct (find _ (sessions t)) as [s'|] eqn:Hfind.
  - apply find_some in Hfind as [Hin' Heq].
    apply String.eqb_eq in Heq.
    f_equal. now apply Huniq.
  - apply (find_none _ _ Hfind) in Hin.
    now rewrite String.eqb_refl in Hin.
Qed.

Lemma In_delete_row {R} (pk : R -> uuid) (i : uuid) (tbl : list R) (r : R) :
  In r (delete_row pk i tbl) <-> In r tbl /\ pk r <> i.
Proof.
  unfold delete_row, has_pk. rewrite filter_In, negb_true_iff, N.eqb_neq.
  tauto.
Qed.

Lemma find_none_iff {R} (f : R -> bool) (l : list R) :
  find f l = None <-> forall r, In r l -> f r = false.
Proof.
  split.
  - intros H r Hr. exact (find_none f l H r Hr).
  - induction l as [|a l IH]; simpl; intros H; [reflexivity|].
    rewrite (H a (or_introl eq_refl)). apply IH. intros r Hr. apply H. now right.
Qed.

Lemma find_app_miss {R} (f : R -> bool) (l l' : list R) :
  find f l = None -> find f (l ++ l') = find f l'.
Proof.
  induction l as [|a l IH]; simpl; [reflexivity|].
  destruct (f a); [discriminate | exact IH].
Qed.

Lemma find_app_hit {R} (f : R -> bool) (l l' : list R) (r : R) :
  find f l = Some r -> find f (l ++ l') = Some r.
Proof.
  induction l as [|a l IH]; simpl; [discriminate|].
  destruct (f a); [trivial | exact IH].
Qed.

Lemma insert_row_fresh {R} (pk : R -> uuid) (r : R) (tbl : list R) :
  fresh_pk pk (pk r) tbl -> insert_row pk r tbl = Some (tbl ++ [r]).
Proof.
  intros Hfresh. unfold insert_row.
  destruct (existsb _ tbl) eqn:E; [|reflexivity].
  apply existsb_exists in E as (x & Hx & Hpk).
  apply N.eqb_eq in Hpk. now elim (Hfresh x Hx).
Qed.

Lemma insert_row_inv {R} (pk : R -> uuid) (r : R) (tbl tbl' : list R) :
  insert_row pk r tbl = Some tbl' ->
  tbl' = tbl ++ [r] /\ find (has_pk pk (pk r)) tbl = None.
Proof.
  unfold insert_row. destruct (existsb _ tbl) eqn:E; [discriminate|].
  intros [= <-]. split; [reflexivity|].
  apply find_none_iff. intros x Hx.
  destruct (has_pk pk (pk r) x) eqn:Hp; [|reflexivity].
  assert (existsb (has_pk pk (pk r)) tbl = true)
    by (apply existsb_exists; eauto).
  congruence.
Qed.

Lemma find_fresh_pk {R} (pk : R -> uuid) (i : uuid) (tbl : list R) :
  fresh_pk pk i tbl -> find (has_pk pk i) tbl = None.
Proof.
  intros H. apply find_none_iff. intros r Hr. apply N.eqb_neq. now apply H.
Qed.

Lemma has_pk_self {R} (pk : R -> uuid) (r : R) : has_pk pk (pk r) r = true.
Proof. apply N.eqb_refl. Qed.

Lemma insert_desc_perm {R} (key : R -> Z) (x : R) (l : list R) :
  Permutation (insert_desc key x l) (x :: l).
Proof.
  induction l as [|y l IH]; simpl; [reflexivity|].
  destruct (key y <=? key x); [reflexivity|].
  rewrite IH. apply perm_swap.
Qed.

Lemma order_by_desc_perm {R} (key : R -> Z) (l : list R) :
  Permutation (order_by_desc key l) l.
Proof.
  induction l as [|x l IH]; simpl; [reflexivity|].
  rewrite insert_desc_perm. now constructor.
Qed.

Lemma order_by_desc_length {R} (key : R -> Z) (l : list R) :
  List.length (order_by_desc key l) = List.length l.
Proof. apply Permutation_length, order_by_desc_perm. Qed.

Lemma In_order_by_desc {R} (key : R -> Z) (l : list R) (r : R) :
  In r (order_by_desc key l) <-> In r l.
Proof.
  split; apply Permutation_in;
    [|symmetry]; apply order_by_desc_perm.
Qed.

Lemma insert_desc_sorted {R} (key : R -> Z) (x : R) (l : list R) :
  newest_first key l -> newest_first key (insert_desc key x l).
Proof.
  unfold newest_first.
  induction l as [|y l IH]; simpl; intros Hs.
  - repeat constructor.
  - destruct (key y <=? key x) eqn:E.
    + apply Z.leb_le in E. constructor; [exact Hs|].
      constructor; [exact E|].
      inversion Hs as [|? ? _ Hall]; subst.
      eapply Forall_impl; [|exact Hall]. simpl. intros; lia.
    + apply Z.leb_gt in E.
      inversion Hs as [|? ? Hs' Hall]; subst.
      constructor; [now apply IH|].
      eapply Permutation_Forall; [symmetry; apply insert_desc_perm|].
      constructor; [lia | exact Hall].
Qed.

Lemma order_by_desc_sorted {R} (key : R -> Z) (l : list R) :
  newest_first key (order_by_desc key l).
Proof.
  induction l as [|x l IH]; simpl.
  - constructor.
  - now apply insert_desc_sorted.
Qed.

(** ** Reasoning principles for the session monad *)

Lemma bind_ok_inv {A B} (c : M A) (k : A -> M B) (db db2 : Db) (b : B) :
  bind c k db = (Ok b, db2) ->
  exists a db1, c db = (Ok a, db1) /\ k a db1 = (Ok b, db2).
Proof.
  unfold bind. destruct (c db) as [[a|e] db1]; [eauto | discriminate].
Qed.

Lemma roundtrip_ok_inv (db db' : Db) (u : unit) :
  roundtrip db = (Ok u, db') ->
  tables db' = tables db /\ pending db' = pending db.
Proof.
  unfold roundtrip. destruct (faults db) as [|[msg|] fl]; intros [= <-];
    try subst db'; auto.
Qed.

Lemma query_first_ok_inv {R} (table : Tables -> list R) (cond : R -> bool)
    (db db' : Db) (r : option R) :
  query_first table cond db = (Ok r, db') ->
  r = find cond (table (tables db))
  /\ tables db' = tables db /\ pending db' = pending db.
Proof.
  unfold query_first. intros H.
  apply bind_ok_inv in H as (u & db1 & Hrt & H).
  apply roundtrip_ok_inv in Hrt as [Ht Hp].
  injection H as <- <-. now rewrite Ht.
Qed.

Lemma commit_ok_inv (db db' : Db) (u : unit) :
  commit db = (Ok u, db') ->
  flush (pending db) (tables db) = Some (tables db') /\ pending db' = [].
Proof.
  unfold commit. intros H.
  apply bind_ok_inv in H as (u' & db1 & Hrt & H).
  apply roundtrip_ok_inv in Hrt as [Ht Hp]. rewrite Ht, Hp in H.
  destruct (flush (pending db) (tables db)) as [t'|]; [|discriminate].
  inversion H; subst; auto.
Qed.

Lemma refresh_ok_inv {R} (table : Tables -> list R) (pk : R -> uuid) (obj r : R)
    (db db' : Db) :
  refresh table pk obj db = (Ok r, db') ->
  find (has_pk pk (pk obj)) (table (tables db)) = Some r
  /\ tables db' = tables db /\ pending db' = pending db.
Proof.
  unfold refresh. intros H.
  apply bind_ok_inv in H as (u' & db1 & Hrt & H).
  apply roundtrip_ok_inv in Hrt as [Ht Hp]. rewrite Ht in H.
  destruct (find _ (table (tables db))) as [r'|]; [|discriminate].
  injection H as <- <-. auto.
Qed.

(** With an empty schedule the primitives run to completion. *)
Lemma query_first_run {R} (table : Tables -> list R) (cond : R -> bool)
    (t : Tables) (cs : list change) :
  query_first table cond (mkDb t cs []) = (Ok (find cond (table t)), mkDb t cs []).
Proof. reflexivity. Qed.

Lemma commit_run (t : Tables) (cs : list change) :
  commit (mkDb t cs [])
  = match flush cs t with
    | Some t' => (Ok tt, mkDb t' [] [])
    | None => (Raise (Exception "IntegrityError"), mkDb t cs [])
    end.
Proof. reflexivity. Qed.

Lemma refresh_run {R} (table : Tables -> list R) (pk : R -> uuid) (obj : R)
    (t : Tables) (cs : list change) :
  refresh table pk obj (mkDb t cs [])
  = match find (has_pk pk (pk obj)) (table t) with
    | Some r => (Ok r, mkDb t cs [])
    | None => (Raise (Exception "InvalidRequestError"), mkDb t cs [])
    end.
Proof. reflexivity. Qed.

(** ** Concrete runs *)

(** A first login stores user and session; the token then verifies. *)
Example login_then_verify :
  let '(r, db) :=
    simple_login Examples.str_uuid 3%N 12%N "tok-carol" 0
      (SimpleLoginRequest.mk "carol") (SessionLocal Examples.empty_tables []) in
  r = Ok (SimpleLoginResponse.mk "tok-carol" "00000000-0000-0000-0000-000000000003")
  /\ tables db
     = mkTables [User.mk 3%N "carol"]
         [DBSession.mk 12%N 3%N "tok-carol" 2592000000000] [] []
  /\ fst (verify_session Examples.str_uuid "tok-carol" 5 db)
     = Ok (VerifyResponse.mk true "00000000-0000-0000-0000-000000000003" "carol").
Proof. repeat split. Qed.

(** Alice's archive: her two "task1" sessions, most recent first. *)
Example archive_page :
  option_map
    (fun r => (map Task1QuestionResponse.created_at (Task1ArchiveResponse.questions r),
               Task1ArchiveResponse.total r))
    (match fst (get_task1_questions Examples.str_uuid Examples.isoformat
                  "alice" 50 0 (SessionLocal Examples.tables0 [])) with
     | Ok r => Some r
     | Raise _ => None
     end)
  = Some (["400"; "100"], 2).
Proof. reflexivity. Qed.

(** ** Session lifecycle ([routers/auth.py]) *)

Lemma get_current_user_unknown_token (t : Tables) (tok : string) (now : datetime) :
  (forall s, In s (sessions t) -> DBSession.session_token s <> tok) ->
  get_current_user (Some tok) now (SessionLocal t [])
  = (Ok None, SessionLocal t []).
Proof.
  intros Hnone. unfold get_current_user.
  destruct tok as [|c tok]; [reflexivity|].
  unfold bind, SessionLocal. rewrite query_first_run.
  replace (find _ (sessions t)) with (@None DBSession.t); [reflexivity|].
  symmetry. apply find_none_iff. intros s Hs.
  apply String.eqb_neq. now apply Hnone.
Qed.

(** C1 (as amended): a stored session whose [expires_at] lies strictly
    before the current time, looked up by its non-empty, unique token,
    resolves to no identity; the lookup deletes the Session row and leaves
    every row with another id in place; a second lookup of the same token,
    at any time, again resolves to no identity and changes nothing. *)
Theorem get_current_user_expired
    (t : Tables) (s : DBSession.t) (now now' : datetime) :
  In s (sessions t) ->
  DBSession.session_token s <> "" ->
  token_unique t s ->
  DBSession.expires_at s < now ->
  exists t',
    get_current_user (Some (DBSession.session_token s)) now (SessionLocal t [])
    = (Ok None, SessionLocal t' [])
    /\ ~ In s (sessions t')
    /\ (forall s', In s' (sessions t') <->
                   In s' (sessions t) /\ DBSession.id s' <> DBSession.id s)
    /\ users t' = users t
    /\ saved_phrases t' = saved_phrases t
    /\ practice_sessions t' = practice_sessions t
    /\ get_current_user (Some (DBSession.session_token s)) now' (SessionLocal t' [])
       = (Ok None, SessionLocal t' []).
Proof.
  intros Hin Htok Huniq Hexp.
  set (t' := mkTables (users t)
               (delete_row DBSession.id (DBSession.id s) (sessions t))
               (saved_phrases t) (practice_sessions t)).
  assert (Hrows : forall s', In s' (sessions t') <->
                             In s' (sessions t) /\ DBSession.id s' <> DBSession.id s).
  { intros s'. unfold t'; simpl. apply In_delete_row. }
  exists t'. repeat split; try reflexivity; try apply Hrows; try tauto.
  - pose proof (find_by_token t s Hin Huniq) as Hfind.
    unfold get_current_user.
    destruct (DBSession.session_token s) as [|c tok] eqn:Etok; [congruence|].
    unfold bind, SessionLocal. rewrite query_first_run, Hfind.
    apply Z.ltb_lt in Hexp. rewrite Hexp. reflexivity.
  - intros Hs. apply Hrows in Hs. tauto.
  - apply get_current_user_unknown_token.
    intros s' Hs' Heq. apply Hrows in Hs' as [Hs' Hid].
    apply Hid. f_equal. now apply Huniq.
Qed.

Lemma get_current_user_expired_witness :
  exists t',
    get_current_user (Some "tok-alice") 1001 (SessionLocal Examples.tables0 [])
    = (Ok None, SessionLocal t' [])
    /\ ~ In Examples.alice_session (sessions t')
    /\ (forall s', In s' (sessions t') <->
                   In s' (sessions Examples.tables0)
                   /\ DBSession.id s' <> DBSession.id Examples.alice_session)
    /\ users t' = users Examples.tables0
    /\ saved_phrases t' = saved_phrases Examples.tables0
    /\ practice_sessions t' = practice_sessions Examples.tables0
    /\ get_current_user (Some "tok-alice") 2000 (SessionLocal t' [])
       = (Ok None, SessionLocal t' []).
Proof.
  apply (get_current_user_expired Examples.tables0 Examples.alice_session 1001 2000).
  - simpl. auto.
  - discriminate.
  - intros s' [<-|[<-|[]]]; simpl; [reflexivity | discriminate].
  - simpl. lia.
Defined.

(** At the instant [utcnow = expires_at] the state machine of the
    specification calls the session Expired, yet the lookup still resolves
    the user and keeps the row. *)
Lemma get_current_user_at_expiry_instant :
  In Examples.alice_session (sessions Examples.tables0)
  /\ DBSession.expires_at Examples.alice_session <= 1000
  /\ get_current_user (Some (DBSession.session_token Examples.alice_session))
       1000 (SessionLocal Examples.tables0 [])
     = (Ok (Some Examples.alice), SessionLocal Examples.tables0 []).
Proof.
  split; [simpl; auto|]. split; [simpl; lia|]. reflexivity.
Qed.

(** C9: a session that is not expired (in particular one whose
    [expires_at] is in the future) but whose [user_id] matches no User row
    resolves to no identity, the Session row and the whole store stay as
    they were, and the verify endpoint answers 401 for its token. *)
Theorem get_current_user_orphan_session
    (str_uuid : uuid -> string)
    (t : Tables) (s : DBSession.t) (now : datetime) :
  In s (sessions t) ->
  DBSession.session_token s <> "" ->
  token_unique t s ->
  now <= DBSession.expires_at s ->
  (forall u, In u (users t) -> User.id u <> DBSession.user_id s) ->
  get_current_user (Some (DBSession.session_token s)) now (SessionLocal t [])
  = (Ok None, SessionLocal t [])
  /\ verify_session str_uuid (DBSession.session_token s) now (SessionLocal t [])
     = (Raise (HTTPException 401 "Invalid or expired session"), SessionLocal t []).
Proof.
  intros Hin Htok Huniq Hlive Horphan.
  assert (Hget : get_current_user (Some (DBSession.session_token s)) now
                   (SessionLocal t []) = (Ok None, SessionLocal t [])).
  { pose proof (find_by_token t s Hin Huniq) as Hfind.
    unfold get_current_user.
    destruct (DBSession.session_token s) as [|c tok] eqn:Etok; [congruence|].
    unfold bind, SessionLocal. rewrite query_first_run, Hfind.
    replace (DBSession.expires_at s <? now) with false
      by (symmetry; apply Z.ltb_ge; exact Hlive).
    rewrite query_first_run.
    replace (find _ (users t)) with (@None User.t); [reflexivity|].
    symmetry. apply find_none_iff. intros u Hu.
    apply N.eqb_neq. now apply Horphan. }
  split; [exact Hget|].
  unfold verify_session, bind. now rewrite Hget.
Qed.

Lemma get_current_user_orphan_session_witness :
  get_current_user (Some "tok-orphan") 1001 (SessionLocal Examples.tables0 [])
  = (Ok None, SessionLocal Examples.tables0 [])
  /\ verify_session Examples.str_uuid "tok-orphan" 1001
       (SessionLocal Examples.tables0 [])
     = (Raise (HTTPException 401 "Invalid or expired session"),
        SessionLocal Examples.tables0 []).
Proof.
  apply (get_current_user_orphan_session Examples.str_uuid
           Examples.tables0 Examples.orphan_session 1001).
  - simpl. auto.
  - discriminate.
  - intros s' [<-|[<-|[]]]; simpl; [discriminate | reflexivity].
  - simpl. lia.
  - intros u [<-|[<-|[]]]; simpl; discriminate.
Defined.

(** A row just inserted is the one its key and its identifier find. *)
Lemma find_inserted_user (us : list User.t) (u : User.t) :
  find (fun u' => String.eqb (User.user_identifier u') (User.user_identifier u)) us
  = None ->
  find (has_pk User.id (User.id u)) us = None ->
  find (fun u' => String.eqb (User.user_identifier u') (User.user_identifier u))
    (us ++ [u]) = Some u
  /\ find (has_pk User.id (User.id u)) (us ++ [u]) = Some u.
Proof.
  intros H1 H2. rewrite !find_app_miss by assumption. simpl.
  now rewrite String.eqb_refl, has_pk_self.
Qed.

Lemma create_or_get_user_found (t : Tables) (cs : list change)
    (fl : list (option string)) (uid : uuid) (ident : string) (u : User.t) :
  resolve_user t ident = Some u ->
  create_or_get_user uid ident (mkDb t cs (None :: fl)) = (Ok u, mkDb t cs fl)
  /\ create_or_get_user uid ident (mkDb t cs []) = (Ok u, mkDb t cs []).
Proof.
  unfold resolve_user, create_or_get_user, bind, query_first, roundtrip; simpl.
  intros ->. split; reflexivity.
Qed.

Lemma create_or_get_user_ok (t : Tables) (fl : list (option string))
    (uid : uuid) (ident : string) (u : User.t) (db' : Db) :
  create_or_get_user uid ident (SessionLocal t fl) = (Ok u, db') ->
  resolve_user (tables db') ident = Some u /\ pending db' = [].
Proof.
  unfold create_or_get_user, resolve_user. intros H.
  apply bind_ok_inv in H as (r & db1 & Hq & H).
  apply query_first_ok_inv in Hq as (-> & Ht1 & Hp1). simpl in *.
  destruct (find _ (users t)) as [u0|] eqn:Hf.
  - injection H as <- <-. rewrite Ht1, Hp1. auto.
  - apply bind_ok_inv in H as ([] & db2 & He & H).
    injection He as <-.
    apply bind_ok_inv in H as ([] & db3 & Hc & H).
    apply commit_ok_inv in Hc as [Hflush Hp3]. simpl in Hflush.
    rewrite Hp1, Ht1 in Hflush. simpl in Hflush.
    destruct (insert_row User.id _ (users t)) as [us|] eqn:Hins;
      [|discriminate].
    apply insert_row_inv in Hins as [-> Hpk].
    injection Hflush as Hflush.
    apply refresh_ok_inv in H as (Hr & Ht & Hp).
    rewrite Ht, Hp, <- Hflush in *. simpl in *.
    destruct (find_inserted_user (users t) (User.mk uid ident) Hf Hpk) as [Hi Hk].
    simpl in Hi, Hk. rewrite Hk in Hr. injection Hr as <-. auto.
Qed.

(** C4: [create_or_get_user] is idempotent.  Whenever a first call returns
    a user, that user is a stored row, the one the identifier resolves to,
    and a second call with the same identifier (whatever id it would give a
    new row) returns that same user and leaves tables and queue untouched:
    no User row is created.  And a first call does return when no round
    trip fails and the id offered for a new row is unused. *)
Theorem create_or_get_user_idempotent
    (t : Tables) (user_identifier : string) (uid1 uid2 : uuid) :
  (forall fl1 fl2 u1 db1,
      create_or_get_user uid1 user_identifier (SessionLocal t fl1) = (Ok u1, db1) ->
      In u1 (users (tables db1))
      /\ User.user_identifier u1 = user_identifier
      /\ resolve_user (tables db1) user_identifier = Some u1
      /\ create_or_get_user uid2 user_identifier
           (mkDb (tables db1) (pending db1) (None :: fl2))
         = (Ok u1, mkDb (tables db1) (pending db1) fl2))
  /\ ((resolve_user t user_identifier = None -> fresh_pk User.id uid1 (users t)) ->
      exists u1 t1,
        create_or_get_user uid1 user_identifier (SessionLocal t [])
        = (Ok u1, SessionLocal t1 [])
        /\ In u1 (users t1)
        /\ User.user_identifier u1 = user_identifier
        /\ resolve_user t1 user_identifier = Some u1
        /\ (resolve_user t user_identifier = None ->
            users t1 = users t ++ [User.mk uid1 user_identifier])
        /\ (resolve_user t user_identifier <> None -> t1 = t)
        /\ create_or_get_user uid2 user_identifier (SessionLocal t1 [])
           = (Ok u1, SessionLocal t1 [])).
Proof.
  assert (Hstored : forall t' u,
             resolve_user t' user_identifier = Some u ->
             In u (users t') /\ User.user_identifier u = user_identifier).
  { intros t' u H. unfold resolve_user in H. apply find_some in H as [Hin Heq].
    now apply String.eqb_eq in Heq. }
  split.
  - intros fl1 fl2 u1 db1 H1.
    apply create_or_get_user_ok in H1 as [Hres _].
    destruct (Hstored _ _ Hres) as [Hin Hident].
    repeat split; try assumption.
    now apply create_or_get_user_found.
  - intros Hfresh.
    destruct (resolve_user t user_identifier) as [u|] eqn:Hres.
    + exists u, t. unfold SessionLocal.
      pose proof (create_or_get_user_found t [] [] uid1 _ u Hres) as [_ H1].
      pose proof (create_or_get_user_found t [] [] uid2 _ u Hres) as [_ H2].
      destruct (Hstored _ _ Hres) as [Hin Hident].
      repeat split; try assumption; try reflexivity. discriminate.
    + specialize (Hfresh eq_refl).
      set (u := User.mk uid1 user_identifier).
      set (t1 := mkTables (users t ++ [u]) (sessions t) (saved_phrases t)
                   (practice_sessions t)).
      assert (Hfirst : create_or_get_user uid1 user_identifier (SessionLocal t [])
                       = (Ok u, SessionLocal t1 [])).
      { unfold create_or_get_user, SessionLocal, bind.
        rewrite query_first_run. unfold resolve_user in Hres. rewrite Hres.
        simpl enqueue. unfold enqueue. simpl. rewrite commit_run. simpl.
        rewrite (insert_row_fresh User.id (User.mk uid1 user_identifier))
          by exact Hfresh.
        simpl. rewrite refresh_run. simpl.
        destruct (find_inserted_user (users t) u Hres
                    (find_fresh_pk User.id uid1 _ Hfresh)) as [_ Hk].
        simpl in Hk. unfold u in Hk. now rewrite Hk. }
      pose proof (create_or_get_user_ok _ _ _ _ _ _ Hfirst) as [Hres1 _].
      simpl in Hres1.
      destruct (Hstored _ _ Hres1) as [Hin Hident].
      exists u, t1. repeat split; try assumption; try reflexivity.
      * intros Hne. now elim Hne.
      * now apply (create_or_get_user_found t1 [] []).
Qed.

Lemma create_or_get_user_idempotent_witness :
  (In Examples.alice (users Examples.tables0)
   /\ User.user_identifier Examples.alice = "alice"
   /\ resolve_user Examples.tables0 "alice" = Some Examples.alice
   /\ create_or_get_user 4%N "alice" (mkDb Examples.tables0 [] [None; Some "late"])
      = (Ok Examples.alice, mkDb Examples.tables0 [] [Some "late"]))
  /\ exists u1 t1,
       create_or_get_user 3%N "carol" (SessionLocal Examples.tables0 [])
       = (Ok u1, SessionLocal t1 [])
       /\ In u1 (users t1)
       /\ User.user_identifier u1 = "carol"
       /\ resolve_user t1 "carol" = Some u1
       /\ (resolve_user Examples.tables0 "carol" = None ->
           users t1 = users Examples.tables0 ++ [User.mk 3%N "carol"])
       /\ (resolve_user Examples.tables0 "carol" <> None -> t1 = Examples.tables0)
       /\ create_or_get_user 4%N "carol" (SessionLocal t1 [])
          = (Ok u1, SessionLocal t1 []).
Proof.
  split.
  - exact (proj1 (create_or_get_user_idempotent Examples.tables0 "alice" 3%N 4%N)
             [None] [Some "late"] Examples.alice (mkDb Examples.tables0 [] [])
             eq_refl).
  - apply (proj2 (create_or_get_user_idempotent Examples.tables0 "carol" 3%N 4%N)).
    intros _ u [<-|[<-|[]]]; discriminate.
Defined.

(** C2 (as amended): a login that fails always surfaces a 500 error and
    leaves nothing queued in the session.  When the first write of the call
    fails (the user insert for an unknown identifier, the session insert for
    a known one) the stored tables are exactly those before the call.  When
    the user insert has been committed and the session insert then fails,
    the rollback drops the Session row only: the tables are those before the
    call plus the User row that [create_or_get_user] committed. *)
Theorem simple_login_write_failure
    (str_uuid : uuid -> string) (t : Tables)
    (new_user_id new_session_id : uuid) (session_token : string)
    (utcnow : datetime) (request : SimpleLoginRequest.t)
    (msg : string) (fl : list (option string)) :
  (forall e db',
      simple_login str_uuid new_user_id new_session_id session_token utcnow
        request (SessionLocal t fl) = (Raise e, db') ->
      (exists m, e = HTTPException 500 ("Login failed: " ++ m)%string)
      /\ pending db' = [])
  /\ simple_login str_uuid new_user_id new_session_id session_token utcnow
       request (SessionLocal t (None :: Some msg :: fl))
     = (Raise (HTTPException 500 ("Login failed: " ++ msg)%string),
        SessionLocal t fl)
  /\ (resolve_user t (SimpleLoginRequest.user_id request) = None ->
      fresh_pk User.id new_user_id (users t) ->
      simple_login str_uuid new_user_id new_session_id session_token utcnow
        request (SessionLocal t (None :: None :: None :: Some msg :: fl))
      = (Raise (HTTPException 500 ("Login failed: " ++ msg)%string),
         SessionLocal
           (mkTables
              (users t ++ [User.mk new_user_id (SimpleLoginRequest.user_id request)])
              (sessions t) (saved_phrases t) (practice_sessions t))
           fl)).
Proof.
  split; [|split].
  - intros e db'. unfold simple_login, try_except.
    destruct (bind _ _ (SessionLocal t fl)) as [[a|e0] db0]; [discriminate|].
    unfold bind, rollback, raise. intros [= <- <-]. simpl. eauto.
  - unfold simple_login, try_except, create_or_get_user, bind, query_first,
      roundtrip, SessionLocal. simpl.
    destruct (find _ (users t)) as [u|]; reflexivity.
  - intros Hres Hfresh.
    unfold simple_login, try_except, create_or_get_user, bind, query_first,
      roundtrip, SessionLocal. simpl.
    unfold resolve_user in Hres. rewrite Hres. simpl.
    unfold commit, refresh, bind, roundtrip. simpl.
    rewrite (insert_row_fresh User.id (User.mk new_user_id _)) by exact Hfresh.
    simpl.
    destruct (find_inserted_user (users t)
                (User.mk new_user_id (SimpleLoginRequest.user_id request)) Hres
                (find_fresh_pk User.id new_user_id _ Hfresh)) as [_ Hk].
    simpl in Hk. rewrite Hk. reflexivity.
Qed.

Lemma simple_login_write_failure_witness :
  simple_login Examples.str_uuid 3%N 12%N "tok-carol" 0
    (SimpleLoginRequest.mk "carol")
    (SessionLocal Examples.tables0 [None; None; None; Some "connection lost"])
  = (Raise (HTTPException 500 "Login failed: connection lost"),
     SessionLocal
       (mkTables (users Examples.tables0 ++ [User.mk 3%N "carol"])
          (sessions Examples.tables0) (saved_phrases Examples.tables0)
          (practice_sessions Examples.tables0))
       []).
Proof.
  apply (simple_login_write_failure Examples.str_uuid Examples.tables0 3%N 12%N
           "tok-carol" 0 (SimpleLoginRequest.mk "carol") "connection lost" []).
  - reflexivity.
  - intros u [<-|[<-|[]]]; discriminate.
Defined.

(** A first login of "alice" on an empty store whose session insert fails:
    the caller gets the 500, and the new User row is stored without any
    Session row. *)
Lemma simple_login_leaves_user_row :
  simple_login Examples.str_uuid 1%N 10%N "tok" 0 (SimpleLoginRequest.mk "alice")
    (SessionLocal Examples.empty_tables [None; None; None; Some "connection lost"])
  = (Raise (HTTPException 500 "Login failed: connection lost"),
     SessionLocal (mkTables [User.mk 1%N "alice"] [] [] []) [])
  /\ users Examples.empty_tables = [].
Proof. split; reflexivity. Qed.

(** C3: the 500 raised by [simple_login] carries the text of the underlying
    exception in its body, for every message the store may raise with,
    whereas [get_task1_questions] answers the same fault with a fixed
    text. *)
Theorem simple_login_leaks_exception_message
    (str_uuid : uuid -> string) (isoformat : datetime -> string) (t : Tables)
    (new_user_id new_session_id : uuid) (session_token : string)
    (utcnow : datetime) (request : SimpleLoginRequest.t)
    (user_id : string) (limit offset : Z)
    (msg : string) (fl : list (option string)) :
  simple_login str_uuid new_user_id new_session_id session_token utcnow
    request (SessionLocal t (Some msg :: fl))
  = (Raise (HTTPException 500 ("Login failed: " ++ msg)%string), SessionLocal t fl)
  /\ get_task1_questions str_uuid isoformat user_id limit offset
       (SessionLocal t (Some msg :: fl))
     = (Raise (HTTPException 500 "Failed to fetch Task1 questions"),
        SessionLocal t fl).
Proof. split; reflexivity. Qed.

(** ** Task1 archive ([routers/task1_archive.py]) *)

Lemma owned_by_spec (uid : uuid) (s : PracticeSession.t) :
  owned_by uid s = true <-> PracticeSession.user_id s = Some uid.
Proof.
  unfold owned_by. destruct (PracticeSession.user_id s) as [o|].
  - rewrite N.eqb_eq. split; congruence.
  - split; discriminate.
Qed.

Lemma is_task1_spec (s : PracticeSession.t) :
  is_task1 s = true <-> PracticeSession.task_type s = "task1".
Proof. apply String.eqb_eq. Qed.

Lemma in_range_fits (limit offset : Z) :
  pagination_in_range limit offset = true -> offset <= int64_max ->
  fits_limit_offset offset limit = true.
Proof.
  unfold pagination_in_range, fits_limit_offset, int64_max. intros H Hmax.
  apply andb_true_iff in H as [H Ho]. apply andb_true_iff in H as [Hl Hu].
  apply Z.leb_le in Ho, Hl, Hu.
  repeat (apply andb_true_iff; split); apply Z.leb_le; lia.
Qed.

Lemma get_task1_questions_run
    (str_uuid : uuid -> string) (isoformat : datetime -> string)
    (t : Tables) (user_id : string) (u : User.t) (limit offset : Z) :
  resolve_user t user_id = Some u ->
  fits_limit_offset offset limit = true ->
  get_task1_questions str_uuid isoformat user_id limit offset (SessionLocal t [])
  = (Ok (Task1ArchiveResponse.mk
           (map (to_response str_uuid isoformat)
              (offset_limit offset limit (task1_query (User.id u) t)))
           (Z.of_nat (List.length (task1_query (User.id u) t)))),
     SessionLocal t []).
Proof.
  intros Hres Hfits. unfold resolve_user in Hres.
  unfold get_task1_questions, try_except, bind, SessionLocal.
  rewrite query_first_run, Hres.
  unfold query_count, query_window, bind, roundtrip. cbn -[fits_limit_offset].
  now rewrite Hfits.
Qed.

(** C5 (as amended): for a known user and in-range windows whose offset
    fits the 64-bit OFFSET of the store, the [total] of
    [get_task1_questions] is the number of practice sessions carrying that
    user's id and task type "task1"; two calls on the same store that
    differ only in [limit] and [offset] report the same [total]. *)
Theorem get_task1_questions_total_invariant
    (str_uuid : uuid -> string) (isoformat : datetime -> string)
    (t : Tables) (user_id : string) (u : User.t)
    (limit1 offset1 limit2 offset2 : Z) :
  resolve_user t user_id = Some u ->
  pagination_in_range limit1 offset1 = true ->
  pagination_in_range limit2 offset2 = true ->
  offset1 <= int64_max ->
  offset2 <= int64_max ->
  exists questions1 questions2 total,
    get_task1_questions str_uuid isoformat user_id limit1 offset1 (SessionLocal t [])
    = (Ok (Task1ArchiveResponse.mk questions1 total), SessionLocal t [])
    /\ get_task1_questions str_uuid isoformat user_id limit2 offset2 (SessionLocal t [])
       = (Ok (Task1ArchiveResponse.mk questions2 total), SessionLocal t [])
    /\ total
       = Z.of_nat
           (List.length
              (filter (fun s => owned_by (User.id u) s && is_task1 s)
                 (practice_sessions t))).
Proof.
  intros Hres Hr1 Hr2 Ho1 Ho2.
  do 2 eexists. exists (Z.of_nat (List.length (task1_query (User.id u) t))).
  split; [|split].
  - apply get_task1_questions_run; [exact Hres | now apply in_range_fits].
  - apply get_task1_questions_run; [exact Hres | now apply in_range_fits].
  - unfold task1_query. now rewrite order_by_desc_length.
Qed.

Lemma get_task1_questions_total_invariant_witness :
  exists questions1 questions2 total,
    get_task1_questions Examples.str_uuid Examples.isoformat "alice" 1 0
      (SessionLocal Examples.tables0 [])
    = (Ok (Task1ArchiveResponse.mk questions1 total), SessionLocal Examples.tables0 [])
    /\ get_task1_questions Examples.str_uuid Examples.isoformat "alice" 50 1
         (SessionLocal Examples.tables0 [])
       = (Ok (Task1ArchiveResponse.mk questions2 total),
          SessionLocal Examples.tables0 [])
    /\ total
       = Z.of_nat
           (List.length
              (filter (fun s => owned_by (User.id Examples.alice) s && is_task1 s)
                 (practice_sessions Examples.tables0))).
Proof.
  apply (get_task1_questions_total_invariant Examples.str_uuid Examples.isoformat
           Examples.tables0 "alice" Examples.alice 1 0 50 1);
    try reflexivity; unfold int64_max; lia.
Defined.

(** The offset 2^63 passes the bound declared on [offset] (at least 0), yet
    the paging query fails in the store and the endpoint answers 500: no
    [total] is returned for this in-range window of a known user. *)
Lemma get_task1_questions_offset_overflow :
  resolve_user Examples.tables0 "alice" = Some Examples.alice
  /\ pagination_in_range 50 9223372036854775808 = true
  /\ get_task1_questions Examples.str_uuid Examples.isoformat "alice" 50
       9223372036854775808 (SessionLocal Examples.tables0 [])
     = (Raise (HTTPException 500 "Failed to fetch Task1 questions"),
        SessionLocal Examples.tables0 []).
Proof. repeat split. Qed.

Lemma get_task1_question_not_found
    (UUID : string -> option uuid)
    (str_uuid : uuid -> string) (isoformat : datetime -> string)
    (t : Tables) (question_id user_id : string) (q : uuid) (u : User.t) :
  UUID question_id = Some q ->
  resolve_user t user_id = Some u ->
  (forall s, In s (practice_sessions t) -> PracticeSession.id s = q ->
             owned_by (User.id u) s && is_task1 s = false) ->
  get_task1_question UUID str_uuid isoformat question_id user_id (SessionLocal t [])
  = (Raise (HTTPException 404 "Task1 question not found"), SessionLocal t []).
Proof.
  intros Hq Hres Hmiss. unfold resolve_user in Hres.
  unfold get_task1_question, try_except, bind, SessionLocal.
  rewrite Hq, query_first_run, Hres, query_first_run.
  replace (find _ (practice_sessions t)) with (@None PracticeSession.t);
    [reflexivity|].
  symmetry. apply find_none_iff. intros s Hs.
  destruct (has_pk PracticeSession.id q s) eqn:Hid; [|reflexivity].
  apply N.eqb_eq in Hid. rewrite <- andb_assoc. simpl. now apply Hmiss.
Qed.

(** C6: a [question_id] that does not parse as a UUID fails with 400
    before anything is asked of the store (in every session state, for
    every [user_id], known or not); a well-formed id for which the resolved
    user has no matching "task1" practice session fails with 404; the two
    failures differ. *)
Theorem get_task1_question_malformed_or_missing
    (UUID : string -> option uuid)
    (str_uuid : uuid -> string) (isoformat : datetime -> string)
    (question_id user_id : string) :
  (UUID question_id = None ->
   forall db,
     get_task1_question UUID str_uuid isoformat question_id user_id db
     = (Raise (HTTPException 400 "Invalid question ID format"), db))
  /\ (forall q u t,
        UUID question_id = Some q ->
        resolve_user t user_id = Some u ->
        (forall s, In s (practice_sessions t) ->
                   ~ (PracticeSession.id s = q
                      /\ PracticeSession.user_id s = Some (User.id u)
                      /\ PracticeSession.task_type s = "task1")) ->
        get_task1_question UUID str_uuid isoformat question_id user_id
          (SessionLocal t [])
        = (Raise (HTTPException 404 "Task1 question not found"), SessionLocal t []))
  /\ HTTPException 400 "Invalid question ID format"
     <> HTTPException 404 "Task1 question not found".
Proof.
  split; [|split].
  - intros Hbad db. unfold get_task1_question, try_except. now rewrite Hbad.
  - intros q u t Hq Hres Hmiss.
    apply (get_task1_question_not_found UUID str_uuid isoformat t _ _ q u Hq Hres).
    intros s Hs Hid.
    destruct (owned_by (User.id u) s && is_task1 s) eqn:E; [|reflexivity].
    apply andb_true_iff in E as [Ho Ht].
    apply owned_by_spec in Ho. apply is_task1_spec in Ht.
    elim (Hmiss s Hs). auto.
  - discriminate.
Qed.

Lemma get_task1_question_malformed_or_missing_witness :
  (forall db,
      get_task1_question Examples.UUID Examples.str_uuid Examples.isoformat
        "not-a-uuid" "nobody" db
      = (Raise (HTTPException 400 "Invalid question ID format"), db))
  /\ get_task1_question Examples.UUID Examples.str_uuid Examples.isoformat
       Examples.qid_absent "alice" (SessionLocal Examples.tables0 [])
     = (Raise (HTTPException 404 "Task1 question not found"),
        SessionLocal Examples.tables0 []).
Proof.
  split.
  - exact (proj1 (get_task1_question_malformed_or_missing Examples.UUID
                    Examples.str_uuid Examples.isoformat "not-a-uuid" "nobody")
             eq_refl).
  - apply (proj1 (proj2 (get_task1_question_malformed_or_missing Examples.UUID
                           Examples.str_uuid Examples.isoformat
                           Examples.qid_absent "alice"))
             255%N Examples.alice Examples.tables0); [reflexivity | reflexivity |].
    intros s [<-|[<-|[<-|[<-|[<-|[]]]]]] [Hid _]; discriminate Hid.
Defined.

(** C7: for a well-formed id and a resolved user, [get_task1_question]
    answers a store in which no practice session has that id exactly as it
    answers a store in which that id exists but belongs to another user (or
    to nobody) or to another task type: the same 404. *)
Theorem get_task1_question_hides_foreign_rows
    (UUID : string -> option uuid)
    (str_uuid : uuid -> string) (isoformat : datetime -> string)
    (question_id user_id : string) (q : uuid)
    (t_absent t_foreign : Tables) (u u' : User.t) (other : PracticeSession.t) :
  UUID question_id = Some q ->
  resolve_user t_absent user_id = Some u ->
  resolve_user t_foreign user_id = Some u' ->
  (forall s, In s (practice_sessions t_absent) -> PracticeSession.id s <> q) ->
  In other (practice_sessions t_foreign) ->
  PracticeSession.id other = q ->
  (forall s, In s (practice_sessions t_foreign) -> PracticeSession.id s = q ->
             PracticeSession.user_id s <> Some (User.id u')
             \/ PracticeSession.task_type s <> "task1") ->
  fst (get_task1_question UUID str_uuid isoformat question_id user_id
         (SessionLocal t_absent []))
  = fst (get_task1_question UUID str_uuid isoformat question_id user_id
           (SessionLocal t_foreign []))
  /\ fst (get_task1_question UUID str_uuid isoformat question_id user_id
            (SessionLocal t_foreign []))
     = Raise (HTTPException 404 "Task1 question not found").
Proof.
  intros Hq Hres Hres' Habsent _ _ Hforeign.
  rewrite (get_task1_question_not_found UUID str_uuid isoformat t_absent
             _ _ q u Hq Hres).
  - rewrite (get_task1_question_not_found UUID str_uuid isoformat t_foreign
               _ _ q u' Hq Hres'); [split; reflexivity|].
    intros s Hs Hid.
    destruct (owned_by (User.id u') s && is_task1 s) eqn:E; [|reflexivity].
    apply andb_true_iff in E as [Ho Ht].
    apply owned_by_spec in Ho. apply is_task1_spec in Ht.
    destruct (Hforeign s Hs Hid); contradiction.
  - intros s Hs Hid. now elim (Habsent s Hs).
Qed.

Lemma get_task1_question_hides_foreign_rows_witness :
  fst (get_task1_question Examples.UUID Examples.str_uuid Examples.isoformat
         Examples.qid_31 "alice" (SessionLocal Examples.empty_users_only []))
  = fst (get_task1_question Examples.UUID Examples.str_uuid Examples.isoformat
           Examples.qid_31 "alice" (SessionLocal Examples.tables0 []))
  /\ fst (get_task1_question Examples.UUID Examples.str_uuid Examples.isoformat
            Examples.qid_31 "alice" (SessionLocal Examples.tables0 []))
     = Raise (HTTPException 404 "Task1 question not found").
Proof.
  apply (get_task1_question_hides_foreign_rows Examples.UUID Examples.str_uuid
           Examples.isoformat Examples.qid_31 "alice" 31%N
           Examples.empty_users_only Examples.tables0
           Examples.alice Examples.alice
           (Examples.task1_of 31%N (Some 2%N) "task1" 200)).
  - reflexivity.
  - reflexivity.
  - reflexivity.
  - intros s [].
  - simpl. auto.
  - reflexivity.
  - intros s [<-|[<-|[<-|[<-|[<-|[]]]]]] Hid; try discriminate Hid.
    left. discriminate.
Defined.

(** ** Phrase repository ([repositories/phrase_repository.py]) *)

Lemma get_user_phrases_run (t : Tables) (cs : list change) (user_id : uuid) :
  PhraseRepository.get_user_phrases user_id (mkDb t cs [])
  = (Ok (PhraseRepository.user_phrases_query user_id t), mkDb t cs []).
Proof. reflexivity. Qed.

Lemma In_user_phrases_query (t : Tables) (user_id : uuid) (p : SavedPhrase.t) :
  In p (PhraseRepository.user_phrases_query user_id t)
  <-> In p (saved_phrases t) /\ SavedPhrase.user_id p = user_id.
Proof.
  unfold PhraseRepository.user_phrases_query.
  now rewrite In_order_by_desc, filter_In, N.eqb_eq.
Qed.

Lemma save_phrase_run (t : Tables) (new_id user_id : uuid) (now : datetime)
    (phrase context category : string) :
  fresh_pk SavedPhrase.id new_id (saved_phrases t) ->
  let p := SavedPhrase.mk new_id user_id phrase context category false now in
  PhraseRepository.save_phrase new_id now user_id phrase context category
    (SessionLocal t [])
  = (Ok p,
     SessionLocal
       (mkTables (users t) (sessions t) (saved_phrases t ++ [p])
          (practice_sessions t)) []).
Proof.
  intros Hfresh p.
  unfold PhraseRepository.save_phrase, SessionLocal, bind, enqueue. simpl.
  rewrite commit_run. simpl.
  rewrite (insert_row_fresh SavedPhrase.id p) by exact Hfresh. simpl.
  rewrite refresh_run. simpl.
  rewrite find_app_miss by (now apply find_fresh_pk). simpl.
  change (has_pk SavedPhrase.id new_id p) with (has_pk SavedPhrase.id (SavedPhrase.id p) p).
  now rewrite has_pk_self.
Qed.

(** C8: [get_user_phrases] returns exactly the saved phrases whose
    [user_id] is the given user, most recent first.  A phrase saved for
    user A is stored with [is_mastered = false] and the generated id and
    [created_at], is returned as stored, appears in A's list and, for any
    other user B, does not appear in B's list. *)
Theorem save_phrase_then_get_user_phrases
    (t : Tables) (A B new_id : uuid) (now : datetime)
    (phrase context category : string) :
  (forall t0 u,
      exists l,
        PhraseRepository.get_user_phrases u (SessionLocal t0 [])
        = (Ok l, SessionLocal t0 [])
        /\ Permutation l
             (filter (fun p => N.eqb (SavedPhrase.user_id p) u) (saved_phrases t0))
        /\ (forall p, In p l <->
                      In p (saved_phrases t0) /\ SavedPhrase.user_id p = u)
        /\ newest_first SavedPhrase.created_at l)
  /\ (A <> B ->
      fresh_pk SavedPhrase.id new_id (saved_phrases t) ->
      exists t' la lb,
        let p := SavedPhrase.mk new_id A phrase context category false now in
        PhraseRepository.save_phrase new_id now A phrase context category
          (SessionLocal t [])
        = (Ok p, SessionLocal t' [])
        /\ PhraseRepository.get_user_phrases A (SessionLocal t' [])
           = (Ok la, SessionLocal t' [])
        /\ PhraseRepository.get_user_phrases B (SessionLocal t' [])
           = (Ok lb, SessionLocal t' [])
        /\ In p la
        /\ ~ In p lb).
Proof.
  split.
  - intros t0 u. exists (PhraseRepository.user_phrases_query u t0).
    split; [apply get_user_phrases_run|].
    split; [apply order_by_desc_perm|].
    split; [apply In_user_phrases_query | apply order_by_desc_sorted].
  - intros Hneq Hfresh.
    set (p := SavedPhrase.mk new_id A phrase context category false now).
    set (t' := mkTables (users t) (sessions t) (saved_phrases t ++ [p])
                 (practice_sessions t)).
    exists t', (PhraseRepository.user_phrases_query A t'),
      (PhraseRepository.user_phrases_query B t').
    cbv zeta. fold p.
    split; [now apply save_phrase_run|].
    split; [apply get_user_phrases_run|].
    split; [apply get_user_phrases_run|].
    split.
    + apply In_user_phrases_query. split; [|reflexivity].
      unfold t'; simpl. apply in_or_app. right. now left.
    + rewrite In_user_phrases_query. intros [_ Hown]. now apply Hneq.
Qed.

Lemma save_phrase_then_get_user_phrases_witness :
  exists t' la lb,
    let p := SavedPhrase.mk 23%N 1%N "as a result" "cause" "transition" false 400 in
    PhraseRepository.save_phrase 23%N 400 1%N "as a result" "cause" "transition"
      (SessionLocal Examples.tables0 [])
    = (Ok p, SessionLocal t' [])
    /\ PhraseRepository.get_user_phrases 1%N (SessionLocal t' [])
       = (Ok la, SessionLocal t' [])
    /\ PhraseRepository.get_user_phrases 2%N (SessionLocal t' [])
       = (Ok lb, SessionLocal t' [])
    /\ In p la
    /\ ~ In p lb.
Proof.
  apply (proj2 (save_phrase_then_get_user_phrases Examples.tables0 1%N 2%N 23%N
                  400 "as a result" "cause" "transition")).
  - discriminate.
  - intros r [<-|[<-|[<-|[]]]]; discriminate.
Defined.

Lemma has_pk_set_is_mastered (i : uuid) (b : bool) (p : SavedPhrase.t) :
  has_pk SavedPhrase.id i (set_is_mastered b p) = has_pk SavedPhrase.id i p.
Proof. reflexivity. Qed.

Lemma find_update_is_mastered (i : uuid) (b : bool) (tbl : list SavedPhrase.t) :
  find (has_pk SavedPhrase.id i) (update_is_mastered i b tbl)
  = option_map (set_is_mastered b) (find (has_pk SavedPhrase.id i) tbl).
Proof.
  induction tbl as [|p tbl IH]; simpl; [reflexivity|].
  destruct (has_pk SavedPhrase.id i p) eqn:E.
  - now rewrite has_pk_set_is_mastered, E.
  - now rewrite E.
Qed.

(** C10: [update_mastered_status] on an id some stored phrase carries
    returns that phrase with the new flag and rewrites nothing but
    [is_mastered]: every stored phrase keeps its position, id, owner, text,
    context, category and creation time; phrases with another id are
    unchanged altogether; users, sessions and practice sessions are
    untouched. *)
Theorem update_mastered_status_frame
    (t : Tables) (phrase_id : uuid) (is_mastered : bool) :
  (exists p, In p (saved_phrases t) /\ SavedPhrase.id p = phrase_id) ->
  exists p0 p' t',
    PhraseRepository.update_mastered_status phrase_id is_mastered (SessionLocal t [])
    = (Ok (Some p'), SessionLocal t' [])
    /\ In p0 (saved_phrases t) /\ In p' (saved_phrases t')
    /\ SavedPhrase.id p0 = phrase_id
    /\ p' = SavedPhrase.mk (SavedPhrase.id p0) (SavedPhrase.user_id p0)
              (SavedPhrase.phrase p0) (SavedPhrase.context p0)
              (SavedPhrase.category p0) is_mastered (SavedPhrase.created_at p0)
    /\ users t' = users t
    /\ sessions t' = sessions t
    /\ practice_sessions t' = practice_sessions t
    /\ List.length (saved_phrases t') = List.length (saved_phrases t)
    /\ (forall i r,
          nth_error (saved_phrases t) i = Some r ->
          exists r',
            nth_error (saved_phrases t') i = Some r'
            /\ SavedPhrase.id r' = SavedPhrase.id r
            /\ SavedPhrase.user_id r' = SavedPhrase.user_id r
            /\ SavedPhrase.phrase r' = SavedPhrase.phrase r
            /\ SavedPhrase.context r' = SavedPhrase.context r
            /\ SavedPhrase.category r' = SavedPhrase.category r
            /\ SavedPhrase.created_at r' = SavedPhrase.created_at r
            /\ (SavedPhrase.id r = phrase_id ->
                SavedPhrase.is_mastered r' = is_mastered)
            /\ (SavedPhrase.id r <> phrase_id -> r' = r)).
Proof.
  intros (p & Hin & Hid).
  destruct (find (has_pk SavedPhrase.id phrase_id) (saved_phrases t))
    as [p0|] eqn:Hfind.
  2:{ apply (find_none _ _ Hfind) in Hin. apply N.eqb_neq in Hin. contradiction. }
  pose proof (find_some _ _ Hfind) as [Hin0 Hid0]. apply N.eqb_eq in Hid0.
  set (t' := mkTables (users t) (sessions t)
               (update_is_mastered phrase_id is_mastered (saved_phrases t))
               (practice_sessions t)).
  exists p0, (set_is_mastered is_mastered p0), t'.
  split; [|split; [exact Hin0|split; [|split; [exact Hid0|split; [reflexivity|]]]]].
  - unfold PhraseRepository.update_mastered_status, PhraseRepository.get_phrase,
      SessionLocal, bind.
    rewrite query_first_run, Hfind. unfold enqueue. simpl.
    rewrite refresh_run. simpl.
    rewrite find_update_is_mastered, Hid0, Hfind. simpl.
    reflexivity.
  - unfold t'; simpl. unfold update_is_mastered. apply in_map_iff.
    exists p0. split; [|exact Hin0].
    unfold has_pk. now rewrite Hid0, N.eqb_refl.
  - repeat (split; [reflexivity|]).
    split; [unfold t'; simpl; apply length_map|].
    intros i r Hr. unfold t'; simpl. unfold update_is_mastered.
    rewrite nth_error_map, Hr. simpl.
    unfold has_pk. destruct (N.eqb (SavedPhrase.id r) phrase_id) eqn:E.
    + eexists. split; [reflexivity|]. simpl.
      apply N.eqb_eq in E. repeat split; congruence.
    + exists r. apply N.eqb_neq in E. repeat split; congruence.
Qed.

Lemma update_mastered_status_frame_witness :
  exists p0 p' t',
    PhraseRepository.update_mastered_status 20%N true
      (SessionLocal Examples.tables0 [])
    = (Ok (Some p'), SessionLocal t' [])
    /\ In p0 (saved_phrases Examples.tables0) /\ In p' (saved_phrases t')
    /\ SavedPhrase.id p0 = 20%N
    /\ p' = SavedPhrase.mk (SavedPhrase.id p0) (SavedPhrase.user_id p0)
              (SavedPhrase.phrase p0) (SavedPhrase.context p0)
              (SavedPhrase.category p0) true (SavedPhrase.created_at p0)
    /\ users t' = users Examples.tables0
    /\ sessions t' = sessions Examples.tables0
    /\ practice_sessions t' = practice_sessions Examples.tables0
    /\ List.length (saved_phrases t') = List.length (saved_phrases Examples.tables0)
    /\ (forall i r,
          nth_error (saved_phrases Examples.tables0) i = Some r ->
          exists r',
            nth_error (saved_phrases t') i = Some r'
            /\ SavedPhrase.id r' = SavedPhrase.id r
            /\ SavedPhrase.user_id r' = SavedPhrase.user_id r
            /\ SavedPhrase.phrase r' = SavedPhrase.phrase r
            /\ SavedPhrase.context r' = SavedPhrase.context r
            /\ SavedPhrase.category r' = SavedPhrase.category r
            /\ SavedPhrase.created_at r' = SavedPhrase.created_at r
            /\ (SavedPhrase.id r = 20%N -> SavedPhrase.is_mastered r' = true)
            /\ (SavedPhrase.id r <> 20%N -> r' = r)).
Proof.
  apply (update_mastered_status_frame Examples.tables0 20%N true).
  exists (Examples.phrase_of 20%N 1%N "on the other hand" false 100).
  split; [simpl; auto | reflexivity].
Defined.

(** * Further properties of the three modules *)

(** ** Round trips leave tables and queue alone *)

Lemma roundtrip_frame (db db' : Db) (r : result unit) :
  roundtrip db = (r, db') ->
  tables db' = tables db /\ pending db' = pending db.
Proof.
  unfold roundtrip. destruct (faults db) as [|[msg|] fl]; intros [= <- <-]; auto.
Qed.

(** ** Reads leave the session alone *)

Lemma read_only_ret {A} (a : A) : read_only (ret a).
Proof. now intros db r db' [= <- <-]. Qed.

Lemma read_only_raise {A} (e : exn) : read_only (@raise A e).
Proof. now intros db r db' [= <- <-]. Qed.

Lemma read_only_bind {A B} (c : M A) (k : A -> M B) :
  read_only c -> (forall a, read_only (k a)) -> read_only (bind c k).
Proof.
  intros Hc Hk db r db'. unfold bind.
  destruct (c db) as [[a|e] db1] eqn:E.
  - intros H. apply Hc in E as [Et Ep]. apply Hk in H as [Ht Hp].
    split; congruence.
  - intros [= <- <-]. now apply Hc in E.
Qed.

Lemma read_only_try_except {A} (body : M A) (handler : exn -> M A) :
  read_only body -> (forall e, read_only (handler e)) ->
  read_only (try_except body handler).
Proof.
  intros Hc Hk db r db'. unfold try_except.
  destruct (body db) as [[a|e] db1] eqn:E.
  - intros [= <- <-]. now apply Hc in E.
  - intros H. apply Hc in E as [Et Ep]. apply Hk in H as [Ht Hp].
    split; congruence.
Qed.

Lemma read_only_roundtrip : read_only roundtrip.
Proof. intros db r db' E. now apply roundtrip_frame in E. Qed.

Lemma read_only_query_first {X} (table : Tables -> list X) (cond : X -> bool) :
  read_only (query_first table cond).
Proof.
  apply read_only_bind; [apply read_only_roundtrip|].
  now intros _ db r db' [= <- <-].
Qed.

Lemma read_only_query_count {X} (q : Tables -> list X) : read_only (query_count q).
Proof.
  apply read_only_bind; [apply read_only_roundtrip|].
  now intros _ db r db' [= <- <-].
Qed.

Lemma read_only_query_all {X} (q : Tables -> list X) : read_only (query_all q).
Proof.
  apply read_only_bind; [apply read_only_roundtrip|].
  now intros _ db r db' [= <- <-].
Qed.

Lemma read_only_query_window {X} (q : Tables -> list X) (offset limit : Z) :
  read_only (query_window q offset limit).
Proof.
  apply read_only_bind; [apply read_only_roundtrip|].
  intros _ db r db'.
  destruct (fits_limit_offset offset limit); now intros [= <- <-].
Qed.

Lemma read_only_boundary {A} (detail : string) (e : exn) :
  read_only (@boundary A detail e).
Proof. destruct e; apply read_only_raise. Qed.

Create HintDb read_only.
#[local] Hint Resolve read_only_ret read_only_raise read_only_roundtrip
  read_only_query_first read_only_query_count read_only_query_all
  read_only_query_window read_only_boundary : read_only.

Ltac read_only_step :=
  first
    [ solve [auto with read_only]
    | apply read_only_bind; [|intros ?]
    | apply read_only_try_except; [|intros ?]
    | match goal with
      | |- read_only (match ?x with _ => _ end) => destruct x
      | |- read_only (let _ := _ in _) => cbv zeta
      end ].

(** X3: the archive endpoints and the repository's readers never write.
    Whatever the arguments, the state of the session and the faults met,
    [get_task1_questions], [get_task1_question], [get_phrase] and
    [get_user_phrases] leave the tables and the queued changes exactly as
    they found them. *)
Theorem readers_are_read_only (UUID : string -> option uuid)
    (str_uuid : uuid -> string) (isoformat : datetime -> string)
    (user_id question_id : string) (limit offset : Z) (phrase_id owner : uuid) :
  read_only (get_task1_questions str_uuid isoformat user_id limit offset)
  /\ read_only (get_task1_question UUID str_uuid isoformat question_id user_id)
  /\ read_only (PhraseRepository.get_phrase phrase_id)
  /\ read_only (PhraseRepository.get_user_phrases owner).
Proof.
  split; [|split; [|split]].
  - unfold get_task1_questions. repeat read_only_step.
  - unfold get_task1_question. repeat read_only_step.
  - unfold PhraseRepository.get_phrase. repeat read_only_step.
  - unfold PhraseRepository.get_user_phrases. repeat read_only_step.
Qed.

(** ** Inverting the outcome of a computation *)

Lemma bind_raise_inv {A B} (c : M A) (k : A -> M B) (db db2 : Db) (e : exn) :
  bind c k db = (Raise e, db2) ->
  c db = (Raise e, db2)
  \/ exists a db1, c db = (Ok a, db1) /\ k a db1 = (Raise e, db2).
Proof.
  unfold bind. destruct (c db) as [[a|e0] db1]; [eauto|].
  intros [= <- <-]. now left.
Qed.

Lemma try_except_ok_inv {A} (body : M A) (handler : exn -> M A)
    (db db2 : Db) (a : A) :
  try_except body handler db = (Ok a, db2) ->
  body db = (Ok a, db2)
  \/ exists e db1, body db = (Raise e, db1) /\ handler e db1 = (Ok a, db2).
Proof.
  unfold try_except. destruct (body db) as [[a0|e] db1]; [|eauto].
  intros [= <- <-]. now left.
Qed.

Lemma try_except_raise_inv {A} (body : M A) (handler : exn -> M A)
    (db db2 : Db) (e : exn) :
  try_except body handler db = (Raise e, db2) ->
  exists e0 db1, body db = (Raise e0, db1) /\ handler e0 db1 = (Raise e, db2).
Proof.
  unfold try_except. destruct (body db) as [[a0|e0] db1]; [discriminate|eauto].
Qed.

Lemma try_boundary_ok_inv {A} (body : M A) (detail : string)
    (db db2 : Db) (a : A) :
  try_except body (boundary detail) db = (Ok a, db2) -> body db = (Ok a, db2).
Proof.
  intros H. apply try_except_ok_inv in H as [H|(e & db1 & _ & H)]; [exact H|].
  destruct e; discriminate.
Qed.

Lemma roundtrip_raise_inv (db db' : Db) (e : exn) :
  roundtrip db = (Raise e, db') -> exists m, e = Exception m.
Proof.
  unfold roundtrip. destruct (faults db) as [|[msg|] fl]; try discriminate.
  intros [= <- _]. eauto.
Qed.

Lemma query_first_raise_inv {X} (table : Tables -> list X) (cond : X -> bool)
    (db db' : Db) (e : exn) :
  query_first table cond db = (Raise e, db') -> exists m, e = Exception m.
Proof.
  intros H. apply bind_raise_inv in H as [H|(a & db1 & _ & H)];
    [now apply roundtrip_raise_inv in H | discriminate].
Qed.

Lemma query_count_raise_inv {X} (q : Tables -> list X) (db db' : Db) (e : exn) :
  query_count q db = (Raise e, db') -> exists m, e = Exception m.
Proof.
  intros H. apply bind_raise_inv in H as [H|(a & db1 & _ & H)];
    [now apply roundtrip_raise_inv in H | discriminate].
Qed.

Lemma query_all_raise_inv {X} (q : Tables -> list X) (db db' : Db) (e : exn) :
  query_all q db = (Raise e, db') -> exists m, e = Exception m.
Proof.
  intros H. apply bind_raise_inv in H as [H|(a & db1 & _ & H)];
    [now apply roundtrip_raise_inv in H | discriminate].
Qed.

Lemma query_window_raise_inv {X} (q : Tables -> list X) (offset limit : Z)
    (db db' : Db) (e : exn) :
  query_window q offset limit db = (Raise e, db') -> exists m, e = Exception m.
Proof.
  intros H. apply bind_raise_inv in H as [H|(a & db1 & _ & H)];
    [now apply roundtrip_raise_inv in H|].
  destruct (fits_limit_offset offset limit); [discriminate|].
  injection H as <- _. eauto.
Qed.

Lemma query_window_ok_inv {X} (q : Tables -> list X) (offset limit : Z)
    (db db' : Db) (l : list X) :
  query_window q offset limit db = (Ok l, db') ->
  l = offset_limit offset limit (q (tables db))
  /\ tables db' = tables db /\ pending db' = pending db.
Proof.
  unfold query_window. intros H.
  apply bind_ok_inv in H as (u & db1 & Hrt & H).
  apply roundtrip_ok_inv in Hrt as [Ht Hp].
  destruct (fits_limit_offset offset limit); [|discriminate].
  injection H as <- <-. now rewrite Ht.
Qed.

Lemma query_count_ok_inv {X} (q : Tables -> list X) (db db' : Db) (n : Z) :
  query_count q db = (Ok n, db') ->
  n = Z.of_nat (List.length (q (tables db)))
  /\ tables db' = tables db /\ pending db' = pending db.
Proof.
  unfold query_count. intros H.
  apply bind_ok_inv in H as (u & db1 & Hrt & H).
  apply roundtrip_ok_inv in Hrt as [Ht Hp].
  injection H as <- <-. now rewrite Ht.
Qed.

Lemma query_all_ok_inv {X} (q : Tables -> list X) (db db' : Db) (l : list X) :
  query_all q db = (Ok l, db') ->
  l = q (tables db) /\ tables db' = tables db /\ pending db' = pending db.
Proof.
  unfold query_all. intros H.
  apply bind_ok_inv in H as (u & db1 & Hrt & H).
  apply roundtrip_ok_inv in Hrt as [Ht Hp].
  injection H as <- <-. now rewrite Ht.
Qed.

(** ** Task1 archive: pages, ownership and failures *)



Lemma In_firstn {X} (n : nat) (l : list X) (x : X) :
  In x (firstn n l) -> In x l.
Proof.
  intros H. rewrite <- (firstn_skipn n l). apply in_or_app. now left.
Qed.

Lemma In_skipn {X} (n : nat) (l : list X) (x : X) :
  In x (skipn n l) -> In x l.
Proof.
  intros H. rewrite <- (firstn_skipn n l). apply in_or_app. now right.
Qed.

Lemma newest_first_skipn {X} (key : X -> Z) (n : nat) (l : list X) :
  newest_first key l -> newest_first key (skipn n l).
Proof.
  unfold newest_first. revert l.
  induction n as [|n IH]; intros l Hs; [exact Hs|].
  destruct l as [|x l]; [exact Hs|]. simpl. apply IH.
  now inversion Hs.
Qed.

Lemma newest_first_firstn {X} (key : X -> Z) (n : nat) (l : list X) :
  newest_first key l -> newest_first key (firstn n l).
Proof.
  unfold newest_first. revert l.
  induction n as [|n IH]; intros l Hs; [constructor|].
  destruct l as [|x l]; [constructor|]. simpl.
  inversion Hs as [|? ? Hs' Hall]; subst.
  constructor; [now apply IH|].
  rewrite Forall_forall in *. intros y Hy. apply Hall.
  eapply In_firstn; exact Hy.
Qed.

Lemma In_offset_limit {X} (offset limit : Z) (l : list X) (x : X) :
  In x (offset_limit offset limit l) -> In x l.
Proof.
  unfold offset_limit. intros H.
  apply In_firstn in H. eapply In_skipn; exact H.
Qed.

Lemma In_task1_query (uid : uuid) (t : Tables) (s : PracticeSession.t) :
  In s (task1_query uid t)
  <-> In s (practice_sessions t)
      /\ PracticeSession.user_id s = Some uid
      /\ PracticeSession.task_type s = "task1".
Proof.
  unfold task1_query.
  now rewrite In_order_by_desc, filter_In, andb_true_iff, owned_by_spec,
    is_task1_spec.
Qed.

Lemma get_task1_questions_ok_inv
    (str_uuid : uuid -> string) (isoformat : datetime -> string)
    (user_id : string) (limit offset : Z)
    (db db' : Db) (r : Task1ArchiveResponse.t) :
  get_task1_questions str_uuid isoformat user_id limit offset db = (Ok r, db') ->
  exists u,
    resolve_user (tables db) user_id = Some u
    /\ r = Task1ArchiveResponse.mk
             (map (to_response str_uuid isoformat)
                (offset_limit offset limit (task1_query (User.id u) (tables db))))
             (Z.of_nat (List.length (task1_query (User.id u) (tables db)))).
Proof.
  unfold get_task1_questions, resolve_user. intros H.
  apply try_boundary_ok_inv in H.
  apply bind_ok_inv in H as (user & db1 & Hq & H).
  apply query_first_ok_inv in Hq as (-> & Ht1 & _).
  destruct (find _ (users (tables db))) as [u|]; [|discriminate].
  exists u. split; [reflexivity|].
  apply bind_ok_inv in H as (total & db2 & Hc & H).
  apply query_count_ok_inv in Hc as (-> & Ht2 & _).
  apply bind_ok_inv in H as (page & db3 & Ha & H).
  apply query_window_ok_inv in Ha as (-> & _ & _).
  injection H as <- _. now rewrite Ht2, Ht1.
Qed.

(** X4: what a page of [get_task1_questions] holds.  Whenever the endpoint
    answers (under any fault schedule), the user resolved, and the
    questions are the rendering of a list of stored practice sessions that
    all carry that user's id and task type "task1", ordered most recent
    first, of length [min limit (total - offset)]; an offset at or past the
    total therefore gives an empty page. *)
Theorem get_task1_questions_page
    (str_uuid : uuid -> string) (isoformat : datetime -> string)
    (user_id : string) (limit offset : Z)
    (db db' : Db) (r : Task1ArchiveResponse.t) :
  get_task1_questions str_uuid isoformat user_id limit offset db = (Ok r, db') ->
  exists u page,
    resolve_user (tables db) user_id = Some u
    /\ Task1ArchiveResponse.questions r = map (to_response str_uuid isoformat) page
    /\ (forall s, In s page ->
                  In s (practice_sessions (tables db))
                  /\ PracticeSession.user_id s = Some (User.id u)
                  /\ PracticeSession.task_type s = "task1")
    /\ newest_first PracticeSession.created_at page
    /\ List.length (Task1ArchiveResponse.questions r)
       = Nat.min (Z.to_nat limit)
           (Z.to_nat (Task1ArchiveResponse.total r) - Z.to_nat offset)
    /\ (Task1ArchiveResponse.total r <= offset ->
        Task1ArchiveResponse.questions r = []).
Proof.
  intros H. apply get_task1_questions_ok_inv in H as (u & Hres & ->).
  set (all := task1_query (User.id u) (tables db)).
  exists u, (offset_limit offset limit all). simpl.
  assert (Hlen : List.length
                   (map (to_response str_uuid isoformat)
                      (offset_limit offset limit all))
                 = Nat.min (Z.to_nat limit)
                     (Z.to_nat (Z.of_nat (List.length all)) - Z.to_nat offset)).
  { unfold offset_limit.
    now rewrite length_map, length_firstn, length_skipn, Nat2Z.id. }
  split; [exact Hres|]. split; [reflexivity|]. split; [|split; [|split]].
  - intros s Hs. apply In_offset_limit in Hs. now apply In_task1_query.
  - unfold offset_limit. apply newest_first_firstn, newest_first_skipn.
    apply order_by_desc_sorted.
  - exact Hlen.
  - intros Hpast. apply length_zero_iff_nil. rewrite Hlen. lia.
Qed.

Lemma get_task1_questions_page_witness :
  exists u page,
    resolve_user Examples.tables0 "alice" = Some u
    /\ [Task1QuestionResponse.mk "00000000-0000-0000-0000-00000000001e"
          "Describe your hometown." None None "100"]
       = map (to_response Examples.str_uuid Examples.isoformat) page
    /\ (forall s, In s page ->
                  In s (practice_sessions Examples.tables0)
                  /\ PracticeSession.user_id s = Some (User.id u)
                  /\ PracticeSession.task_type s = "task1")
    /\ newest_first PracticeSession.created_at page
    /\ 1%nat = Nat.min (Z.to_nat 5) (Z.to_nat 2 - Z.to_nat 1)
    /\ (2 <= 1 -> [Task1QuestionResponse.mk "00000000-0000-0000-0000-00000000001e"
                     "Describe your hometown." None None "100"] = []).
Proof.
  exact (get_task1_questions_page Examples.str_uuid Examples.isoformat
           "alice" 5 1 (SessionLocal Examples.tables0 [None])
           (SessionLocal Examples.tables0 []) _ eq_refl).
Defined.

Lemma Permutation_filter_same {X} (f : X -> bool) (l l' : list X) :
  Permutation l l' -> Permutation (filter f l) (filter f l').
Proof.
  induction 1 as [|x l l' _ IH|x y l|l1 l2 l3 _ IH1 _ IH2]; simpl.
  - constructor.
  - destruct (f x); [now constructor | exact IH].
  - destruct (f x), (f y); try reflexivity. apply perm_swap.
  - now transitivity (filter f l2).
Qed.

(** With distinct keys there is one way to list rows most recent first. *)
Lemma newest_first_unique {X} (key : X -> Z) (l1 l2 : list X) :
  NoDup (map key l1) -> Permutation l1 l2 ->
  newest_first key l1 -> newest_first key l2 -> l1 = l2.
Proof.
  unfold newest_first. revert l2.
  induction l1 as [|x l1 IH]; intros l2 Hnd Hperm Hs1 Hs2.
  - apply Permutation_nil in Hperm. now subst.
  - destruct l2 as [|z l2];
      [symmetry in Hperm; now apply Permutation_nil in Hperm|].
    inversion Hnd as [|? ? Hnotin Hnd']; subst.
    inversion Hs1 as [|? ? Hs1' Hall1]; subst.
    inversion Hs2 as [|? ? Hs2' Hall2]; subst.
    rewrite Forall_forall in Hall1, Hall2.
    assert (Hz : z = x).
    { assert (Hin : In z (x :: l1))
        by (apply (Permutation_in z (Permutation_sym Hperm)); now left).
      destruct Hin as [->|Hin]; [reflexivity|].
      assert (Hx : In x (z :: l2))
        by (apply (Permutation_in x Hperm); now left).
      destruct Hx as [->|Hx]; [reflexivity|].
      pose proof (Hall1 z Hin) as Hle1. pose proof (Hall2 x Hx) as Hle2.
      elim Hnotin. replace (key x) with (key z) by lia. now apply in_map. }
    subst z. f_equal.
    apply IH; auto. now apply Permutation_cons_inv in Hperm.
Qed.

Lemma order_by_desc_unique {X} (key : X -> Z) (l l' : list X) :
  NoDup (map key l) -> Permutation l l' ->
  order_by_desc key l = order_by_desc key l'.
Proof.
  intros Hnd Hperm. apply (newest_first_unique key).
  - apply (Permutation_NoDup
             (Permutation_map key (Permutation_sym (order_by_desc_perm key l)))).
    exact Hnd.
  - rewrite order_by_desc_perm, Hperm. symmetry. apply order_by_desc_perm.
  - apply order_by_desc_sorted.
  - apply order_by_desc_sorted.
Qed.



(** X6: [get_task1_question] only ever returns a row of the caller.
    Whenever it answers (under any fault schedule), the id parsed, the user
    resolved, and the answer renders a stored practice session that has the
    requested id, that user's id and task type "task1". *)
Theorem get_task1_question_sound
    (UUID : string -> option uuid)
    (str_uuid : uuid -> string) (isoformat : datetime -> string)
    (question_id user_id : string)
    (db db' : Db) (r : Task1QuestionResponse.t) :
  get_task1_question UUID str_uuid isoformat question_id user_id db = (Ok r, db') ->
  exists q u s,
    UUID question_id = Some q
    /\ resolve_user (tables db) user_id = Some u
    /\ In s (practice_sessions (tables db))
    /\ PracticeSession.id s = q
    /\ PracticeSession.user_id s = Some (User.id u)
    /\ PracticeSession.task_type s = "task1"
    /\ r = to_response str_uuid isoformat s.
Proof.
  unfold get_task1_question, resolve_user. intros H.
  apply try_boundary_ok_inv in H.
  destruct (UUID question_id) as [q|]; [|discriminate].
  apply bind_ok_inv in H as (user & db1 & Hq & H).
  apply query_first_ok_inv in Hq as (-> & Ht1 & _).
  destruct (find _ (users (tables db))) as [u|]; [|discriminate].
  apply bind_ok_inv in H as (session & db2 & Hs & H).
  apply query_first_ok_inv in Hs as (-> & _ & _).
  destruct (find _ (practice_sessions (tables db1))) as [s|] eqn:Hfind;
    [|discriminate].
  injection H as <- _.
  apply find_some in Hfind as [Hin Hcond]. rewrite Ht1 in Hin.
  apply andb_true_iff in Hcond as [Hcond Htask].
  apply andb_true_iff in Hcond as [Hid Hown].
  apply N.eqb_eq in Hid. apply owned_by_spec in Hown.
  apply is_task1_spec in Htask.
  exists q, u, s. auto 10.
Qed.

Lemma get_task1_question_sound_witness :
  exists q u s,
    Examples.UUID "00000000-0000-0000-0000-000000000021" = Some q
    /\ resolve_user Examples.tables0 "alice" = Some u
    /\ In s (practice_sessions Examples.tables0)
    /\ PracticeSession.id s = q
    /\ PracticeSession.user_id s = Some (User.id u)
    /\ PracticeSession.task_type s = "task1"
    /\ Task1QuestionResponse.mk "00000000-0000-0000-0000-000000000021"
         "Describe your hometown." None None "400"
       = to_response Examples.str_uuid Examples.isoformat s.
Proof.
  exact (get_task1_question_sound Examples.UUID Examples.str_uuid
           Examples.isoformat "00000000-0000-0000-0000-000000000021" "alice"
           (SessionLocal Examples.tables0 []) (SessionLocal Examples.tables0 [])
           _ eq_refl).
Defined.

Lemma pk_injective {X} (pk : X -> uuid) (l : list X) (a b : X) :
  NoDup (map pk l) -> In a l -> In b l -> pk a = pk b -> a = b.
Proof.
  induction l as [|x l IH]; simpl; [tauto|].
  intros Hnd Ha Hb Heq. inversion Hnd as [|? ? Hnotin Hnd']; subst.
  destruct Ha as [->|Ha], Hb as [->|Hb].
  - reflexivity.
  - elim Hnotin. rewrite Heq. now apply in_map.
  - elim Hnotin. rewrite <- Heq. now apply in_map.
  - now apply IH.
Qed.



(** X8: the archive endpoints fail only in the documented ways.  Under
    any fault schedule and on any input, an error of [get_task1_questions]
    is the 404 for an unknown user or the fixed-text 500, and an error of
    [get_task1_question] is the 400 for a malformed id, one of the two 404s
    or the fixed-text 500; no raw exception and no exception text reaches
    the caller. *)
Theorem archive_failures
    (UUID : string -> option uuid)
    (str_uuid : uuid -> string) (isoformat : datetime -> string)
    (user_id question_id : string) (limit offset : Z)
    (db db' : Db) (e : exn) :
  (get_task1_questions str_uuid isoformat user_id limit offset db = (Raise e, db') ->
   e = HTTPException 404 "User not found"
   \/ e = HTTPException 500 "Failed to fetch Task1 questions")
  /\ (get_task1_question UUID str_uuid isoformat question_id user_id db
      = (Raise e, db') ->
      e = HTTPException 400 "Invalid question ID format"
      \/ e = HTTPException 404 "User not found"
      \/ e = HTTPException 404 "Task1 question not found"
      \/ e = HTTPException 500 "Failed to fetch Task1 question").
Proof.
  split.
  - unfold get_task1_questions. intros H.
    apply try_except_raise_inv in H as (e0 & db1 & Hbody & Hh).
    assert (He0 : e0 = HTTPException 404 "User not found"
                  \/ exists m, e0 = Exception m).
    { apply bind_raise_inv in Hbody as [Hq|(user & db2 & _ & Hk)].
      - right. now apply query_first_raise_inv in Hq.
      - destruct user as [u|]; [|injection Hk as <- _; now left].
        right.
        apply bind_raise_inv in Hk as [Hc|(total & db3 & _ & Hk)];
          [now apply query_count_raise_inv in Hc|].
        apply bind_raise_inv in Hk as [Ha|(page & db4 & _ & Hk)];
          [now apply query_window_raise_inv in Ha | discriminate]. }
    destruct He0 as [->|[m ->]]; injection Hh as <- _; auto.
  - unfold get_task1_question. intros H.
    apply try_except_raise_inv in H as (e0 & db1 & Hbody & Hh).
    assert (He0 : e0 = HTTPException 400 "Invalid question ID format"
                  \/ e0 = HTTPException 404 "User not found"
                  \/ e0 = HTTPException 404 "Task1 question not found"
                  \/ exists m, e0 = Exception m).
    { destruct (UUID question_id) as [q|]; [|injection Hbody as <- _; now left].
      apply bind_raise_inv in Hbody as [Hq|(user & db2 & _ & Hk)].
      - do 3 right. now apply query_first_raise_inv in Hq.
      - destruct user as [u|]; [|injection Hk as <- _; auto].
        apply bind_raise_inv in Hk as [Hq|(session & db3 & _ & Hk)].
        + do 3 right. now apply query_first_raise_inv in Hq.
        + destruct session as [s|]; [discriminate|].
          injection Hk as <- _. auto. }
    destruct He0 as [->|[->|[->|[m ->]]]]; injection Hh as <- _; auto.
Qed.

Lemma archive_failures_witness :
  (HTTPException 500 "Failed to fetch Task1 questions"
   = HTTPException 404 "User not found"
   \/ HTTPException 500 "Failed to fetch Task1 questions"
      = HTTPException 500 "Failed to fetch Task1 questions")
  /\ (HTTPException 404 "User not found"
      = HTTPException 400 "Invalid question ID format"
      \/ HTTPException 404 "User not found" = HTTPException 404 "User not found"
      \/ HTTPException 404 "User not found"
         = HTTPException 404 "Task1 question not found"
      \/ HTTPException 404 "User not found"
         = HTTPException 500 "Failed to fetch Task1 question").
Proof.
  split.
  - exact (proj1 (archive_failures Examples.UUID Examples.str_uuid
                    Examples.isoformat "alice" Examples.qid_31 50 0
                    (SessionLocal Examples.tables0 [None; Some "connection lost"])
                    (SessionLocal Examples.tables0 [])
                    (HTTPException 500 "Failed to fetch Task1 questions"))
             eq_refl).
  - exact (proj2 (archive_failures Examples.UUID Examples.str_uuid
                    Examples.isoformat "nobody" Examples.qid_31 50 0
                    (SessionLocal Examples.tables0 [])
                    (SessionLocal Examples.tables0 [])
                    (HTTPException 404 "User not found"))
             eq_refl).
Defined.

(** X9: an unknown [user_id] is a 404 on both archive endpoints, and the
    store is not touched. *)
Theorem archive_unknown_user
    (UUID : string -> option uuid)
    (str_uuid : uuid -> string) (isoformat : datetime -> string)
    (t : Tables) (user_id question_id : string) (limit offset : Z) (q : uuid) :
  (forall u, In u (users t) -> User.user_identifier u <> user_id) ->
  UUID question_id = Some q ->
  get_task1_questions str_uuid isoformat user_id limit offset (SessionLocal t [])
  = (Raise (HTTPException 404 "User not found"), SessionLocal t [])
  /\ get_task1_question UUID str_uuid isoformat question_id user_id
       (SessionLocal t [])
     = (Raise (HTTPException 404 "User not found"), SessionLocal t []).
Proof.
  intros Hnone Hq.
  assert (Hfind : find (fun u => String.eqb (User.user_identifier u) user_id)
                    (users t) = None).
  { apply find_none_iff. intros u Hu. apply String.eqb_neq. now apply Hnone. }
  unfold get_task1_questions, get_task1_question, try_except, bind, SessionLocal.
  now rewrite Hq, query_first_run, Hfind.
Qed.

Lemma archive_unknown_user_witness :
  get_task1_questions Examples.str_uuid Examples.isoformat "nobody" 50 0
    (SessionLocal Examples.tables0 [])
  = (Raise (HTTPException 404 "User not found"), SessionLocal Examples.tables0 [])
  /\ get_task1_question Examples.UUID Examples.str_uuid Examples.isoformat
       Examples.qid_31 "nobody" (SessionLocal Examples.tables0 [])
     = (Raise (HTTPException 404 "User not found"),
        SessionLocal Examples.tables0 []).
Proof.
  apply (archive_unknown_user Examples.UUID Examples.str_uuid Examples.isoformat
           Examples.tables0 "nobody" Examples.qid_31 50 0 31%N).
  - intros u [<-|[<-|[]]]; discriminate.
  - reflexivity.
Defined.

(** ** Sessions: lookup, login and logout *)

Lemma find_by_pk {X} (pk : X -> uuid) (l : list X) (r : X) :
  NoDup (map pk l) -> In r l -> find (has_pk pk (pk r)) l = Some r.
Proof.
  intros Hnd Hin.
  destruct (find (has_pk pk (pk r)) l) as [r'|] eqn:Hfind.
  - apply find_some in Hfind as [Hin' Hpk]. apply N.eqb_eq in Hpk.
    f_equal. now apply (pk_injective pk l).
  - apply (find_none _ _ Hfind) in Hin. now rewrite has_pk_self in Hin.
Qed.

Lemma delete_row_fresh {X} (pk : X -> uuid) (i : uuid) (tbl : list X) :
  fresh_pk pk i tbl -> delete_row pk i tbl = tbl.
Proof.
  intros Hfresh. unfold delete_row.
  induction tbl as [|x tbl IH]; simpl; [reflexivity|].
  unfold has_pk at 1.
  replace (N.eqb (pk x) i) with false
    by (symmetry; apply N.eqb_neq; apply Hfresh; now left).
  simpl. f_equal. apply IH. intros r Hr. apply Hfresh. now right.
Qed.

Lemma delete_row_app {X} (pk : X -> uuid) (i : uuid) (l l' : list X) :
  delete_row pk i (l ++ l') = delete_row pk i l ++ delete_row pk i l'.
Proof. apply filter_app. Qed.

Lemma get_current_user_run (t : Tables) (tok : string) (s : DBSession.t)
    (now : datetime) :
  tok <> "" ->
  session_of_token t tok = Some s ->
  get_current_user (Some tok) now (SessionLocal t [])
  = if DBSession.expires_at s <? now
    then (Ok None,
          SessionLocal
            (with_sessions (delete_row DBSession.id (DBSession.id s) (sessions t)) t)
            [])
    else (Ok (find (has_pk User.id (DBSession.user_id s)) (users t)),
          SessionLocal t []).
Proof.
  intros Htok Hfind. unfold session_of_token in Hfind.
  unfold get_current_user.
  destruct tok as [|c tok]; [congruence|].
  unfold bind, SessionLocal. rewrite query_first_run, Hfind.
  destruct (DBSession.expires_at s <? now); reflexivity.
Qed.

Lemma logout_run (t : Tables) (tok : string) :
  logout tok (SessionLocal t [])
  = (Ok "Logged out successfully",
     SessionLocal
       match session_of_token t tok with
       | Some s =>
           with_sessions (delete_row DBSession.id (DBSession.id s) (sessions t)) t
       | None => t
       end []).
Proof.
  unfold logout, session_of_token, bind, SessionLocal.
  rewrite query_first_run.
  destruct (find _ (sessions t)); reflexivity.
Qed.

Lemma session_of_token_none (t : Tables) (tok : string) :
  session_of_token t tok = None <->
  forall s, In s (sessions t) -> DBSession.session_token s <> tok.
Proof.
  unfold session_of_token. rewrite find_none_iff.
  split; intros H s Hs; apply String.eqb_neq; now apply H.
Qed.

(** X10: a token no stored session carries, and the empty token, resolve
    to no identity.  [verify_session] answers 401 and the store is left as
    it was; for the empty token not even a query is issued, so this holds
    in every session state and under every fault schedule. *)
Theorem verify_session_rejects_unknown_token
    (str_uuid : uuid -> string) (t : Tables) (tok : string) (now : datetime) :
  (forall db,
      get_current_user None now db = (Ok None, db)
      /\ get_current_user (Some "") now db = (Ok None, db)
      /\ verify_session str_uuid "" now db
         = (Raise (HTTPException 401 "Invalid or expired session"), db))
  /\ ((forall s, In s (sessions t) -> DBSession.session_token s <> tok) ->
      get_current_user (Some tok) now (SessionLocal t [])
      = (Ok None, SessionLocal t [])
      /\ verify_session str_uuid tok now (SessionLocal t [])
         = (Raise (HTTPException 401 "Invalid or expired session"),
            SessionLocal t [])).
Proof.
  split; [intros db; repeat split|].
  intros Hnone.
  assert (H : get_current_user (Some tok) now (SessionLocal t [])
              = (Ok None, SessionLocal t []))
    by now apply get_current_user_unknown_token.
  split; [exact H|]. unfold verify_session, bind. now rewrite H.
Qed.

Lemma verify_session_rejects_unknown_token_witness :
  get_current_user (Some "tok-mallory") 5 (SessionLocal Examples.tables0 [])
  = (Ok None, SessionLocal Examples.tables0 [])
  /\ verify_session Examples.str_uuid "tok-mallory" 5
       (SessionLocal Examples.tables0 [])
     = (Raise (HTTPException 401 "Invalid or expired session"),
        SessionLocal Examples.tables0 []).
Proof.
  apply (proj2 (verify_session_rejects_unknown_token Examples.str_uuid
                  Examples.tables0 "tok-mallory" 5)).
  intros s [<-|[<-|[]]]; discriminate.
Defined.

(** X11: a live session verifies.  For a stored session with a non-empty,
    unique token that has not expired (the instant [expires_at] included)
    and whose user row exists, user ids being distinct,
    [get_current_user] returns that user and [verify_session] answers with
    that user's id and identifier; the store is left as it was. *)
Theorem verify_session_valid
    (str_uuid : uuid -> string) (t : Tables) (s : DBSession.t) (u : User.t)
    (now : datetime) :
  In s (sessions t) ->
  DBSession.session_token s <> "" ->
  token_unique t s ->
  now <= DBSession.expires_at s ->
  NoDup (map User.id (users t)) ->
  In u (users t) ->
  User.id u = DBSession.user_id s ->
  get_current_user (Some (DBSession.session_token s)) now (SessionLocal t [])
  = (Ok (Some u), SessionLocal t [])
  /\ verify_session str_uuid (DBSession.session_token s) now (SessionLocal t [])
     = (Ok (VerifyResponse.mk true (str_uuid (User.id u)) (User.user_identifier u)),
        SessionLocal t []).
Proof.
  intros Hin Htok Huniq Hlive Hnd Hu Hid.
  assert (H : get_current_user (Some (DBSession.session_token s)) now
                (SessionLocal t []) = (Ok (Some u), SessionLocal t [])).
  { rewrite (get_current_user_run t _ s now Htok (find_by_token t s Hin Huniq)).
    replace (DBSession.expires_at s <? now) with false
      by (symmetry; now apply Z.ltb_ge).
    now rewrite <- Hid, (find_by_pk User.id (users t) u Hnd Hu). }
  split; [exact H|]. unfold verify_session, bind. now rewrite H.
Qed.

Lemma verify_session_valid_witness :
  get_current_user (Some "tok-alice") 1000 (SessionLocal Examples.tables0 [])
  = (Ok (Some Examples.alice), SessionLocal Examples.tables0 [])
  /\ verify_session Examples.str_uuid "tok-alice" 1000
       (SessionLocal Examples.tables0 [])
     = (Ok (VerifyResponse.mk true "00000000-0000-0000-0000-000000000001" "alice"),
        SessionLocal Examples.tables0 []).
Proof.
  apply (verify_session_valid Examples.str_uuid Examples.tables0
           Examples.alice_session Examples.alice 1000).
  - simpl. auto.
  - discriminate.
  - intros s' [<-|[<-|[]]]; simpl; [reflexivity | discriminate].
  - simpl. lia.
  - simpl. repeat constructor; simpl; intuition discriminate.
  - simpl. auto.
  - reflexivity.
Defined.

(** X12: [verify_session] vouches only for what is stored.  Whenever it
    answers (in any session state, under any fault schedule), some stored
    session carries the token and has not expired, a stored user has that
    session's [user_id], and the answer is that user's id and identifier;
    the tables and the queue are as before. *)
Theorem verify_session_sound
    (str_uuid : uuid -> string) (tok : string) (now : datetime)
    (db db' : Db) (r : VerifyResponse.t) :
  verify_session str_uuid tok now db = (Ok r, db') ->
  exists s u,
    In s (sessions (tables db))
    /\ DBSession.session_token s = tok
    /\ tok <> ""
    /\ now <= DBSession.expires_at s
    /\ In u (users (tables db))
    /\ User.id u = DBSession.user_id s
    /\ r = VerifyResponse.mk true (str_uuid (User.id u)) (User.user_identifier u)
    /\ tables db' = tables db
    /\ pending db' = pending db.
Proof.
  unfold verify_session. intros H.
  apply bind_ok_inv in H as (user & db1 & Hget & H).
  destruct user as [u|]; [|discriminate]. injection H as <- <-.
  unfold get_current_user in Hget.
  destruct tok as [|c tok]; [discriminate|].
  apply bind_ok_inv in Hget as (session & db2 & Hq & Hget).
  apply query_first_ok_inv in Hq as (-> & Ht2 & Hp2).
  destruct (find _ (sessions (tables db))) as [s|] eqn:Hs; [|discriminate].
  apply find_some in Hs as [Hin Htok]. apply String.eqb_eq in Htok.
  destruct (DBSession.expires_at s <? now) eqn:Hexp.
  - apply bind_ok_inv in Hget as ([] & db3 & _ & Hget).
    apply bind_ok_inv in Hget as ([] & db4 & _ & Hget). discriminate.
  - apply Z.ltb_ge in Hexp.
    apply query_first_ok_inv in Hget as (Hu & Ht1 & Hp1).
    symmetry in Hu. apply find_some in Hu as [Hu Hid]. apply N.eqb_eq in Hid.
    rewrite Ht2 in Hu.
    exists s, u. repeat split; try assumption; try discriminate; congruence.
Qed.

Lemma verify_session_sound_witness :
  exists s u,
    In s (sessions Examples.tables0)
    /\ DBSession.session_token s = "tok-alice"
    /\ "tok-alice" <> ""
    /\ 7 <= DBSession.expires_at s
    /\ In u (users Examples.tables0)
    /\ User.id u = DBSession.user_id s
    /\ VerifyResponse.mk true "00000000-0000-0000-0000-000000000001" "alice"
       = VerifyResponse.mk true (Examples.str_uuid (User.id u)) (User.user_identifier u)
    /\ Examples.tables0 = Examples.tables0
    /\ @nil change = [].
Proof.
  exact (verify_session_sound Examples.str_uuid "tok-alice" 7
           (SessionLocal Examples.tables0 [None; None])
           (SessionLocal Examples.tables0 []) _ eq_refl).
Defined.

Lemma commit_outcome (db db' : Db) (r : result unit) :
  commit db = (r, db') ->
  tables db' = tables db \/ flush (pending db) (tables db) = Some (tables db').
Proof.
  unfold commit, bind.
  destruct (roundtrip db) as [[[]|e] db1] eqn:E.
  - apply roundtrip_frame in E as [Ht Hp]. rewrite Ht, Hp.
    destruct (flush (pending db) (tables db)) as [t'|];
      intros [= <- <-]; simpl; auto.
  - apply roundtrip_frame in E as [Ht _]. intros [= <- <-]. now left.
Qed.

Lemma get_current_user_outcome (tok : option string) (now : datetime)
    (t : Tables) (fl : list (option string)) (r : result (option User.t))
    (db' : Db) :
  get_current_user tok now (SessionLocal t fl) = (r, db') ->
  tables db' = t
  \/ exists s,
       tok = Some (DBSession.session_token s)
       /\ In s (sessions t)
       /\ DBSession.expires_at s < now
       /\ tables db'
          = with_sessions (delete_row DBSession.id (DBSession.id s) (sessions t)) t.
Proof.
  unfold get_current_user.
  destruct tok as [[|c tok]|]; try (intros [= <- <-]; now left).
  unfold bind at 1.
  destruct (query_first sessions _ (SessionLocal t fl)) as [[session|e] db1] eqn:E1.
  2:{ apply read_only_query_first in E1 as [Ht _]. intros [= <- <-]. now left. }
  pose proof (read_only_query_first _ _ _ _ _ E1) as [Ht1 Hp1].
  apply query_first_ok_inv in E1 as (-> & _ & _). simpl in *.
  destruct (find _ (sessions t)) as [s|] eqn:Hs; [|intros [= <- <-]; now left].
  apply find_some in Hs as [Hin Htok]. apply String.eqb_eq in Htok.
  destruct (DBSession.expires_at s <? now) eqn:Hexp.
  - apply Z.ltb_lt in Hexp. unfold bind at 1. unfold enqueue at 1.
    unfold bind at 1.
    destruct (commit _) as [[[]|e] db2] eqn:E2.
    + intros [= <- <-]. apply commit_outcome in E2 as [E2|E2]; simpl in E2.
      * left. congruence.
      * right. exists s. rewrite Hp1, Ht1 in E2. simpl in E2.
        injection E2 as <-. repeat split; auto. now rewrite <- Htok.
    + intros [= <- <-]. apply commit_outcome in E2 as [E2|E2]; simpl in E2.
      * left. congruence.
      * right. exists s. rewrite Hp1, Ht1 in E2. simpl in E2.
        injection E2 as <-. repeat split; auto. now rewrite <- Htok.
  - intros H. apply read_only_query_first in H as [Ht _]. left. congruence.
Qed.

(** X13: a lookup purges nothing but the expired session it was asked
    about.  Under any fault schedule, [get_current_user] leaves users,
    saved phrases and practice sessions as they were and adds no session;
    with distinct session ids, a session row missing afterwards carried the
    looked-up token and had expired. *)
Theorem get_current_user_purges_only_expired
    (tok : option string) (now : datetime)
    (t : Tables) (fl : list (option string)) (r : result (option User.t))
    (db' : Db) :
  get_current_user tok now (SessionLocal t fl) = (r, db') ->
  users (tables db') = users t
  /\ saved_phrases (tables db') = saved_phrases t
  /\ practice_sessions (tables db') = practice_sessions t
  /\ (forall s, In s (sessions (tables db')) -> In s (sessions t))
  /\ (NoDup (map DBSession.id (sessions t)) ->
      forall s, In s (sessions t) -> ~ In s (sessions (tables db')) ->
                tok = Some (DBSession.session_token s)
                /\ DBSession.expires_at s < now).
Proof.
  intros H. apply get_current_user_outcome in H as [->|(s0 & Htok & Hin0 & Hexp & ->)].
  - split; [|split; [|split; [|split]]]; auto.
    intros _ s Hs Hn. contradiction.
  - simpl. split; [|split; [|split; [|split]]]; auto.
    + intros s Hs. now apply In_delete_row in Hs.
    + intros Hnd s Hs Hgone.
      destruct (N.eq_dec (DBSession.id s) (DBSession.id s0)) as [Heq|Hne].
      * rewrite (pk_injective DBSession.id (sessions t) s s0); auto.
      * elim Hgone. apply In_delete_row. auto.
Qed.

Lemma get_current_user_purges_only_expired_witness :
  users (with_sessions [Examples.orphan_session] Examples.tables0)
  = users Examples.tables0
  /\ saved_phrases (with_sessions [Examples.orphan_session] Examples.tables0)
     = saved_phrases Examples.tables0
  /\ practice_sessions (with_sessions [Examples.orphan_session] Examples.tables0)
     = practice_sessions Examples.tables0
  /\ (forall s, In s [Examples.orphan_session] -> In s (sessions Examples.tables0))
  /\ (NoDup (map DBSession.id (sessions Examples.tables0)) ->
      forall s, In s (sessions Examples.tables0) ->
                ~ In s [Examples.orphan_session] ->
                Some "tok-alice" = Some (DBSession.session_token s)
                /\ DBSession.expires_at s < 1001).
Proof.
  exact (get_current_user_purges_only_expired (Some "tok-alice") 1001
           Examples.tables0 [None; None] (Ok None)
           (SessionLocal (with_sessions [Examples.orphan_session] Examples.tables0) [])
           eq_refl).
Defined.

Lemma create_or_get_user_run (t : Tables) (uid : uuid) (ident : string) :
  (resolve_user t ident = None -> fresh_pk User.id uid (users t)) ->
  exists u t1,
    create_or_get_user uid ident (SessionLocal t []) = (Ok u, SessionLocal t1 [])
    /\ resolve_user t1 ident = Some u
    /\ sessions t1 = sessions t
    /\ saved_phrases t1 = saved_phrases t
    /\ practice_sessions t1 = practice_sessions t
    /\ ((resolve_user t ident = Some u /\ t1 = t)
        \/ (resolve_user t ident = None /\ u = User.mk uid ident
            /\ users t1 = users t ++ [u])).
Proof.
  intros Hfresh.
  destruct (resolve_user t ident) as [u|] eqn:Hres.
  - exists u, t.
    pose proof (create_or_get_user_found t [] [] uid _ u Hres) as [_ H].
    repeat split; auto.
  - specialize (Hfresh eq_refl).
    set (u := User.mk uid ident).
    assert (Hrun : create_or_get_user uid ident (SessionLocal t [])
                   = (Ok u, SessionLocal (with_users (users t ++ [u]) t) [])).
    { unfold create_or_get_user, SessionLocal, bind.
      rewrite query_first_run. unfold resolve_user in Hres. rewrite Hres.
      unfold enqueue. simpl. rewrite commit_run. simpl.
      rewrite (insert_row_fresh User.id (User.mk uid ident)) by exact Hfresh.
      simpl. rewrite refresh_run. simpl.
      destruct (find_inserted_user (users t) u Hres
                  (find_fresh_pk User.id uid _ Hfresh)) as [_ Hk].
      simpl in Hk. unfold u in Hk. now rewrite Hk. }
    exists u, (with_users (users t ++ [u]) t).
    split; [exact Hrun|].
    split; [now apply create_or_get_user_ok in Hrun|].
    repeat split; auto.
Qed.

Lemma simple_login_run (str_uuid : uuid -> string) (t t1 : Tables)
    (uid sid : uuid) (tok : string) (now : datetime)
    (request : SimpleLoginRequest.t) (u : User.t) :
  create_or_get_user uid (SimpleLoginRequest.user_id request) (SessionLocal t [])
  = (Ok u, SessionLocal t1 []) ->
  fresh_pk DBSession.id sid (sessions t1) ->
  simple_login str_uuid uid sid tok now request (SessionLocal t [])
  = (Ok (SimpleLoginResponse.mk tok (str_uuid (User.id u))),
     SessionLocal
       (with_sessions (sessions t1 ++ [login_session sid u tok now]) t1) []).
Proof.
  intros Huser Hfresh.
  unfold simple_login, try_except. unfold bind at 1. rewrite Huser.
  unfold bind, enqueue, SessionLocal. simpl. rewrite commit_run. simpl.
  rewrite (insert_row_fresh DBSession.id
             (DBSession.mk sid (User.id u) tok (now + timedelta_days 30)))
    by exact Hfresh.
  simpl. rewrite refresh_run. simpl.
  rewrite find_app_miss by (now apply find_fresh_pk). simpl.
  unfold has_pk. simpl. now rewrite N.eqb_refl.
Qed.

(** X14: what a successful login writes.  When no round trip fails and
    the ids offered to new rows are unused, [simple_login] answers with the
    generated token and the user's id, appends exactly one Session row for
    that user, expiring 30 days after [utcnow], and appends a User row only
    when the identifier was unknown; saved phrases and practice sessions
    are untouched. *)
Theorem simple_login_ok (str_uuid : uuid -> string) (t : Tables)
    (new_user_id new_session_id : uuid) (session_token : string)
    (utcnow : datetime) (request : SimpleLoginRequest.t) :
  (resolve_user t (SimpleLoginRequest.user_id request) = None ->
   fresh_pk User.id new_user_id (users t)) ->
  fresh_pk DBSession.id new_session_id (sessions t) ->
  exists u t',
    simple_login str_uuid new_user_id new_session_id session_token utcnow request
      (SessionLocal t [])
    = (Ok (SimpleLoginResponse.mk session_token (str_uuid (User.id u))),
       SessionLocal t' [])
    /\ resolve_user t' (SimpleLoginRequest.user_id request) = Some u
    /\ sessions t'
       = sessions t
         ++ [DBSession.mk new_session_id (User.id u) session_token
               (utcnow + 30 * 86400 * 1000000)]
    /\ ((resolve_user t (SimpleLoginRequest.user_id request) = Some u
         /\ users t' = users t)
        \/ (resolve_user t (SimpleLoginRequest.user_id request) = None
            /\ users t'
               = users t
                 ++ [User.mk new_user_id (SimpleLoginRequest.user_id request)]))
    /\ saved_phrases t' = saved_phrases t
    /\ practice_sessions t' = practice_sessions t.
Proof.
  intros Hu Hs.
  destruct (create_or_get_user_run t new_user_id _ Hu)
    as (u & t1 & Hrun & Hres1 & Hs1 & Hp1 & Hq1 & Hcase).
  exists u, (with_sessions (sessions t1 ++ [login_session new_session_id u
                                               session_token utcnow]) t1).
  split; [apply (simple_login_run str_uuid t t1); [exact Hrun | now rewrite Hs1]|].
  simpl. rewrite Hs1. repeat split; auto.
  destruct Hcase as [[Hk ->]|(Hn & -> & Hus)]; [left | right]; auto.
Qed.

Lemma simple_login_ok_witness :
  exists u t',
    simple_login Examples.str_uuid 3%N 12%N "tok-alice-2" 50
      (SimpleLoginRequest.mk "alice") (SessionLocal Examples.tables0 [])
    = (Ok (SimpleLoginResponse.mk "tok-alice-2" (Examples.str_uuid (User.id u))),
       SessionLocal t' [])
    /\ resolve_user t' "alice" = Some u
    /\ sessions t'
       = sessions Examples.tables0
         ++ [DBSession.mk 12%N (User.id u) "tok-alice-2" (50 + 30 * 86400 * 1000000)]
    /\ ((resolve_user Examples.tables0 "alice" = Some u
         /\ users t' = users Examples.tables0)
        \/ (resolve_user Examples.tables0 "alice" = None
            /\ users t' = users Examples.tables0 ++ [User.mk 3%N "alice"]))
    /\ saved_phrases t' = saved_phrases Examples.tables0
    /\ practice_sessions t' = practice_sessions Examples.tables0.
Proof.
  apply (simple_login_ok Examples.str_uuid Examples.tables0 3%N 12%N
           "tok-alice-2" 50 (SimpleLoginRequest.mk "alice")).
  - discriminate.
  - intros s [<-|[<-|[]]]; discriminate.
Defined.

Lemma session_of_token_app_new (t : Tables) (ss : list DBSession.t)
    (s : DBSession.t) (extra : list DBSession.t) :
  (forall s', In s' ss ->
              DBSession.session_token s' <> DBSession.session_token s) ->
  session_of_token (with_sessions (ss ++ s :: extra) t) (DBSession.session_token s)
  = Some s.
Proof.
  intros Hnew. unfold session_of_token. simpl.
  rewrite find_app_miss; [simpl; now rewrite String.eqb_refl|].
  apply find_none_iff. intros s' Hs'. apply String.eqb_neq. now apply Hnew.
Qed.

Lemma resolved_user_by_id (t : Tables) (ident : string) (u : User.t) :
  NoDup (map User.id (users t)) ->
  resolve_user t ident = Some u ->
  find (has_pk User.id (User.id u)) (users t) = Some u.
Proof.
  intros Hnd Hres. apply find_by_pk; [exact Hnd|].
  unfold resolve_user in Hres. now apply find_some in Hres.
Qed.

(** X15: a login is good for exactly 30 days.  After a successful login
    with a non-empty token no stored session carries (user ids being
    distinct), [get_current_user] with that token returns the logged-in
    user at every time up to and including [utcnow + 30 days] and leaves
    the store alone; at any later time it returns no identity and removes
    the row, which puts the sessions table back to what it was before the
    login. *)
Theorem login_token_valid_for_30_days (str_uuid : uuid -> string) (t : Tables)
    (new_user_id new_session_id : uuid) (session_token : string)
    (utcnow later : datetime) (request : SimpleLoginRequest.t) :
  (resolve_user t (SimpleLoginRequest.user_id request) = None ->
   fresh_pk User.id new_user_id (users t)) ->
  fresh_pk DBSession.id new_session_id (sessions t) ->
  NoDup (map User.id (users t)) ->
  session_token <> "" ->
  (forall s, In s (sessions t) -> DBSession.session_token s <> session_token) ->
  exists u t',
    simple_login str_uuid new_user_id new_session_id session_token utcnow request
      (SessionLocal t [])
    = (Ok (SimpleLoginResponse.mk session_token (str_uuid (User.id u))),
       SessionLocal t' [])
    /\ User.user_identifier u = SimpleLoginRequest.user_id request
    /\ (later <= utcnow + timedelta_days 30 ->
        get_current_user (Some session_token) later (SessionLocal t' [])
        = (Ok (Some u), SessionLocal t' []))
    /\ (utcnow + timedelta_days 30 < later ->
        exists t'',
          get_current_user (Some session_token) later (SessionLocal t' [])
          = (Ok None, SessionLocal t'' [])
          /\ sessions t'' = sessions t
          /\ users t'' = users t').
Proof.
  intros Hu Hs Hnd Htok Hnew.
  destruct (create_or_get_user_run t new_user_id _ Hu)
    as (u & t1 & Hrun & Hres1 & Hs1 & Hp1 & Hq1 & Hcase).
  set (s := login_session new_session_id u session_token utcnow).
  set (t' := with_sessions (sessions t1 ++ [s]) t1).
  assert (Hfind : session_of_token t' session_token = Some s).
  { apply (session_of_token_app_new t1 (sessions t1) s []).
    rewrite Hs1. exact Hnew. }
  assert (Huser : find (has_pk User.id (User.id u)) (users t1) = Some u).
  { destruct Hcase as [[Hk ->]|(Hn & Hmk & Hus)].
    - now apply (resolved_user_by_id t (SimpleLoginRequest.user_id request)).
    - rewrite Hus.
      apply (find_inserted_user (users t) u).
      + rewrite Hmk. exact Hn.
      + rewrite Hmk. simpl. apply find_fresh_pk. now apply Hu. }
  exists u, t'.
  split; [apply (simple_login_run str_uuid t t1); [exact Hrun | now rewrite Hs1]|].
  split.
  { unfold resolve_user in Hres1. apply find_some in Hres1 as [_ Heq].
    now apply String.eqb_eq in Heq. }
  rewrite (get_current_user_run t' session_token s later Htok Hfind).
  split.
  - intros Hlive.
    replace (DBSession.expires_at s <? later) with false
      by (symmetry; now apply Z.ltb_ge).
    simpl. now rewrite Huser.
  - intros Hexp.
    replace (DBSession.expires_at s <? later) with true
      by (symmetry; now apply Z.ltb_lt).
    eexists. split; [reflexivity|]. simpl. split; [|reflexivity].
    rewrite delete_row_app, delete_row_fresh by (now rewrite Hs1).
    simpl. unfold has_pk. simpl. rewrite N.eqb_refl. simpl.
    now rewrite app_nil_r.
Qed.

Lemma login_token_valid_for_30_days_witness :
  exists u t',
    simple_login Examples.str_uuid 3%N 12%N "tok-carol" 0
      (SimpleLoginRequest.mk "carol") (SessionLocal Examples.tables0 [])
    = (Ok (SimpleLoginResponse.mk "tok-carol" (Examples.str_uuid (User.id u))),
       SessionLocal t' [])
    /\ User.user_identifier u = "carol"
    /\ (2592000000000 <= 0 + timedelta_days 30 ->
        get_current_user (Some "tok-carol") 2592000000000 (SessionLocal t' [])
        = (Ok (Some u), SessionLocal t' []))
    /\ (0 + timedelta_days 30 < 2592000000000 ->
        exists t'',
          get_current_user (Some "tok-carol") 2592000000000 (SessionLocal t' [])
          = (Ok None, SessionLocal t'' [])
          /\ sessions t'' = sessions Examples.tables0
          /\ users t'' = users t').
Proof.
  apply (login_token_valid_for_30_days Examples.str_uuid Examples.tables0
           3%N 12%N "tok-carol" 0 2592000000000 (SimpleLoginRequest.mk "carol")).
  - intros _ u [<-|[<-|[]]]; discriminate.
  - intros s [<-|[<-|[]]]; discriminate.
  - simpl. repeat constructor; simpl; intuition discriminate.
  - discriminate.
  - intros s [<-|[<-|[]]]; discriminate.
Defined.

(** X16: [logout] ends a session and nothing else.  With distinct session
    ids and at most one row per token, [logout] always answers "Logged out
    successfully"; afterwards the sessions are exactly those that carried
    another token, the other tables are as before, the token resolves to no
    identity, and logging out again changes nothing (an absent token is a
    no-op, not an error). *)
Theorem logout_removes_the_session (t : Tables) (tok : string) (now : datetime) :
  NoDup (map DBSession.id (sessions t)) ->
  (forall s1 s2, In s1 (sessions t) -> In s2 (sessions t) ->
                 DBSession.session_token s1 = tok ->
                 DBSession.session_token s2 = tok -> s1 = s2) ->
  exists t',
    logout tok (SessionLocal t []) = (Ok "Logged out successfully", SessionLocal t' [])
    /\ (forall s, In s (sessions t') <->
                  In s (sessions t) /\ DBSession.session_token s <> tok)
    /\ users t' = users t
    /\ saved_phrases t' = saved_phrases t
    /\ practice_sessions t' = practice_sessions t
    /\ get_current_user (Some tok) now (SessionLocal t' [])
       = (Ok None, SessionLocal t' [])
    /\ logout tok (SessionLocal t' [])
       = (Ok "Logged out successfully", SessionLocal t' []).
Proof.
  intros Hnd Huniq.
  assert (Hex : exists t',
             logout tok (SessionLocal t [])
             = (Ok "Logged out successfully", SessionLocal t' [])
             /\ (forall s, In s (sessions t') <->
                           In s (sessions t) /\ DBSession.session_token s <> tok)
             /\ users t' = users t
             /\ saved_phrases t' = saved_phrases t
             /\ practice_sessions t' = practice_sessions t).
  { rewrite logout_run.
    destruct (session_of_token t tok) as [s0|] eqn:Hfind.
    - eexists. split; [reflexivity|]. simpl.
      split; [|split; [|split]]; try reflexivity.
      unfold session_of_token in Hfind.
      apply find_some in Hfind as [Hin0 Htok0]. apply String.eqb_eq in Htok0.
      intros s. rewrite In_delete_row. split; intros [Hin H]; split; auto.
      + intros Htok. apply H. f_equal. now apply Huniq.
      + intros Hid. apply H.
        now rewrite (pk_injective DBSession.id (sessions t) s s0).
    - exists t. split; [reflexivity|].
      split; [|split; [|split]]; try reflexivity.
      intros s. split; [|tauto]. intros Hin. split; [exact Hin|].
      now apply (proj1 (session_of_token_none t tok) Hfind). }
  destruct Hex as (t' & Hrun & Hrows & Hu & Hp & Hq).
  assert (Hnone : session_of_token t' tok = None).
  { apply session_of_token_none. intros s Hs. now apply Hrows in Hs. }
  exists t'.
  split; [exact Hrun|]. split; [exact Hrows|].
  split; [exact Hu|]. split; [exact Hp|]. split; [exact Hq|]. split.
  - apply get_current_user_unknown_token.
    now apply session_of_token_none.
  - now rewrite logout_run, Hnone.
Qed.

Lemma logout_removes_the_session_witness :
  exists t',
    logout "tok-alice" (SessionLocal Examples.tables0 [])
    = (Ok "Logged out successfully", SessionLocal t' [])
    /\ (forall s, In s (sessions t') <->
                  In s (sessions Examples.tables0)
                  /\ DBSession.session_token s <> "tok-alice")
    /\ users t' = users Examples.tables0
    /\ saved_phrases t' = saved_phrases Examples.tables0
    /\ practice_sessions t' = practice_sessions Examples.tables0
    /\ get_current_user (Some "tok-alice") 5 (SessionLocal t' [])
       = (Ok None, SessionLocal t' [])
    /\ logout "tok-alice" (SessionLocal t' [])
       = (Ok "Logged out successfully", SessionLocal t' []).
Proof.
  apply (logout_removes_the_session Examples.tables0 "tok-alice" 5).
  - simpl. repeat constructor; simpl; intuition discriminate.
  - intros s1 s2 [<-|[<-|[]]] [<-|[<-|[]]]; simpl; intros; congruence.
Defined.

(** X17: two logins of one identifier and a logout.  With unused ids and
    two distinct, non-empty, unused tokens, the second login creates no
    user and a second session; both tokens resolve to the same user while
    neither has expired; logging the first token out leaves the second one
    resolving to that user, while the first resolves to no identity. *)
Theorem two_logins_then_logout (str_uuid : uuid -> string) (t : Tables)
    (uid1 uid2 sid1 sid2 : uuid) (tok1 tok2 : string) (now1 now2 now3 : datetime)
    (request : SimpleLoginRequest.t) :
  (resolve_user t (SimpleLoginRequest.user_id request) = None ->
   fresh_pk User.id uid1 (users t)) ->
  fresh_pk DBSession.id sid1 (sessions t) ->
  fresh_pk DBSession.id sid2 (sessions t) ->
  sid1 <> sid2 ->
  NoDup (map User.id (users t)) ->
  tok1 <> "" -> tok2 <> "" -> tok1 <> tok2 ->
  (forall s, In s (sessions t) ->
             DBSession.session_token s <> tok1 /\ DBSession.session_token s <> tok2) ->
  now3 <= now1 + timedelta_days 30 ->
  now3 <= now2 + timedelta_days 30 ->
  exists u t1 t2 t3,
    simple_login str_uuid uid1 sid1 tok1 now1 request (SessionLocal t [])
    = (Ok (SimpleLoginResponse.mk tok1 (str_uuid (User.id u))), SessionLocal t1 [])
    /\ simple_login str_uuid uid2 sid2 tok2 now2 request (SessionLocal t1 [])
       = (Ok (SimpleLoginResponse.mk tok2 (str_uuid (User.id u))), SessionLocal t2 [])
    /\ users t2 = users t1
    /\ get_current_user (Some tok1) now3 (SessionLocal t2 [])
       = (Ok (Some u), SessionLocal t2 [])
    /\ get_current_user (Some tok2) now3 (SessionLocal t2 [])
       = (Ok (Some u), SessionLocal t2 [])
    /\ logout tok1 (SessionLocal t2 [])
       = (Ok "Logged out successfully", SessionLocal t3 [])
    /\ get_current_user (Some tok1) now3 (SessionLocal t3 [])
       = (Ok None, SessionLocal t3 [])
    /\ get_current_user (Some tok2) now3 (SessionLocal t3 [])
       = (Ok (Some u), SessionLocal t3 []).
Proof.
  intros Hu Hs1 Hs2 Hsid Hnd Htok1 Htok2 Htok Hnew Hlive1 Hlive2.
  destruct (create_or_get_user_run t uid1 _ Hu)
    as (u & ta & Hrun & Hres & Hsa & _ & _ & Hcase).
  set (s1 := login_session sid1 u tok1 now1).
  set (s2 := login_session sid2 u tok2 now2).
  set (t1 := with_sessions (sessions ta ++ [s1]) ta).
  set (t2 := with_sessions (sessions ta ++ [s1; s2]) ta).
  set (t3 := with_sessions (sessions ta ++ [s2]) ta).
  assert (Huser : find (has_pk User.id (User.id u)) (users ta) = Some u).
  { destruct Hcase as [[Hk ->]|(Hn & Hmk & Hus)].
    - now apply (resolved_user_by_id t (SimpleLoginRequest.user_id request)).
    - rewrite Hus. apply (find_inserted_user (users t) u).
      + rewrite Hmk. exact Hn.
      + rewrite Hmk. simpl. apply find_fresh_pk. now apply Hu. }
  assert (Hfresh1 : fresh_pk DBSession.id sid1 (sessions ta)) by now rewrite Hsa.
  assert (Hnew1 : forall s, In s (sessions ta) -> DBSession.session_token s <> tok1).
  { intros s Hs. rewrite Hsa in Hs. now apply Hnew. }
  assert (Hnew2 : forall s, In s (sessions ta) -> DBSession.session_token s <> tok2).
  { intros s Hs. rewrite Hsa in Hs. now apply Hnew. }
  assert (Hlogin2 :
            simple_login str_uuid uid2 sid2 tok2 now2 request (SessionLocal t1 [])
            = (Ok (SimpleLoginResponse.mk tok2 (str_uuid (User.id u))),
               SessionLocal t2 [])).
  { rewrite (simple_login_run str_uuid t1 t1 uid2 sid2 tok2 now2 request u).
    - unfold t1, t2, with_sessions. simpl. now rewrite <- app_assoc.
    - now apply (create_or_get_user_found t1 [] []).
    - intros r Hr. simpl in Hr. apply in_app_or in Hr as [Hr|[<-|[]]].
      + rewrite Hsa in Hr. now apply Hs2.
      + simpl. exact Hsid. }
  assert (Hf1 : session_of_token t2 tok1 = Some s1)
    by exact (session_of_token_app_new ta (sessions ta) s1 [s2] Hnew1).
  assert (Hf2 : session_of_token t2 tok2 = Some s2).
  { unfold t2.
    replace (sessions ta ++ [s1; s2]) with ((sessions ta ++ [s1]) ++ [s2])
      by now rewrite <- app_assoc.
    apply (session_of_token_app_new ta (sessions ta ++ [s1]) s2 []).
    intros s Hs. apply in_app_or in Hs as [Hs|[<-|[]]]; [now apply Hnew2|].
    exact Htok. }
  assert (Hf3 : session_of_token t3 tok2 = Some s2)
    by exact (session_of_token_app_new ta (sessions ta) s2 [] Hnew2).
  assert (Hdel : delete_row DBSession.id (DBSession.id s1) (sessions t2)
                 = sessions ta ++ [s2]).
  { unfold t2. simpl. rewrite delete_row_app, delete_row_fresh by exact Hfresh1.
    f_equal. unfold delete_row, has_pk. simpl.
    rewrite N.eqb_refl. simpl.
    replace (N.eqb sid2 sid1) with false
      by (symmetry; apply N.eqb_neq; congruence).
    reflexivity. }
  exists u, t1, t2, t3.
  split; [apply (simple_login_run str_uuid t ta); assumption|].
  split; [exact Hlogin2|].
  split; [reflexivity|].
  rewrite !(get_current_user_run t2 _ _ now3 Htok1 Hf1).
  rewrite !(get_current_user_run t2 _ _ now3 Htok2 Hf2).
  rewrite (get_current_user_run t3 _ _ now3 Htok2 Hf3).
  replace (DBSession.expires_at s1 <? now3) with false
    by (symmetry; now apply Z.ltb_ge).
  replace (DBSession.expires_at s2 <? now3) with false
    by (symmetry; now apply Z.ltb_ge).
  simpl. rewrite Huser.
  split; [reflexivity|]. split; [reflexivity|].
  split.
  { rewrite logout_run, Hf1, Hdel. reflexivity. }
  split; [|reflexivity].
  apply get_current_user_unknown_token.
  intros s Hs. simpl in Hs. apply in_app_or in Hs as [Hs|[<-|[]]].
  - now apply Hnew1.
  - simpl. congruence.
Qed.

Lemma two_logins_then_logout_witness :
  exists u t1 t2 t3,
    simple_login Examples.str_uuid 3%N 12%N "T1" 0 (SimpleLoginRequest.mk "alice")
      (SessionLocal Examples.tables0 [])
    = (Ok (SimpleLoginResponse.mk "T1" (Examples.str_uuid (User.id u))),
       SessionLocal t1 [])
    /\ simple_login Examples.str_uuid 4%N 13%N "T2" 10 (SimpleLoginRequest.mk "alice")
         (SessionLocal t1 [])
       = (Ok (SimpleLoginResponse.mk "T2" (Examples.str_uuid (User.id u))),
          SessionLocal t2 [])
    /\ users t2 = users t1
    /\ get_current_user (Some "T1") 20 (SessionLocal t2 [])
       = (Ok (Some u), SessionLocal t2 [])
    /\ get_current_user (Some "T2") 20 (SessionLocal t2 [])
       = (Ok (Some u), SessionLocal t2 [])
    /\ logout "T1" (SessionLocal t2 [])
       = (Ok "Logged out successfully", SessionLocal t3 [])
    /\ get_current_user (Some "T1") 20 (SessionLocal t3 [])
       = (Ok None, SessionLocal t3 [])
    /\ get_current_user (Some "T2") 20 (SessionLocal t3 [])
       = (Ok (Some u), SessionLocal t3 []).
Proof.
  apply (two_logins_then_logout Examples.str_uuid Examples.tables0
           3%N 4%N 12%N 13%N "T1" "T2" 0 10 20 (SimpleLoginRequest.mk "alice")).
  - discriminate.
  - intros s [<-|[<-|[]]]; discriminate.
  - intros s [<-|[<-|[]]]; discriminate.
  - discriminate.
  - simpl. repeat constructor; simpl; intuition discriminate.
  - discriminate.
  - discriminate.
  - discriminate.
  - intros s [<-|[<-|[]]]; split; discriminate.
  - unfold timedelta_days. lia.
  - unfold timedelta_days. lia.
Defined.

(** ** Phrase repository: lookups, deletion and the mastered flag *)

Lemma get_phrase_run (t : Tables) (cs : list change) (phrase_id : uuid) :
  PhraseRepository.get_phrase phrase_id (mkDb t cs [])
  = (Ok (find (has_pk SavedPhrase.id phrase_id) (saved_phrases t)), mkDb t cs []).
Proof. reflexivity. Qed.

Lemma delete_phrase_run (t : Tables) (phrase_id : uuid) :
  PhraseRepository.delete_phrase phrase_id (SessionLocal t [])
  = match find (has_pk SavedPhrase.id phrase_id) (saved_phrases t) with
    | Some p =>
        (Ok true,
         SessionLocal
           (with_saved_phrases
              (delete_row SavedPhrase.id (SavedPhrase.id p) (saved_phrases t)) t) [])
    | None => (Ok false, SessionLocal t [])
    end.
Proof.
  unfold PhraseRepository.delete_phrase, bind, SessionLocal.
  rewrite get_phrase_run.
  destruct (find _ (saved_phrases t)); reflexivity.
Qed.

Lemma update_mastered_status_run (t : Tables) (phrase_id : uuid) (b : bool) :
  PhraseRepository.update_mastered_status phrase_id b (SessionLocal t [])
  = match find (has_pk SavedPhrase.id phrase_id) (saved_phrases t) with
    | Some p =>
        (Ok (Some (set_is_mastered b p)),
         SessionLocal
           (with_saved_phrases
              (update_is_mastered phrase_id b (saved_phrases t)) t) [])
    | None => (Ok None, SessionLocal t [])
    end.
Proof.
  unfold PhraseRepository.update_mastered_status, bind, SessionLocal.
  rewrite get_phrase_run.
  destruct (find _ (saved_phrases t)) as [p|] eqn:Hfind; [|reflexivity].
  pose proof (find_some _ _ Hfind) as [_ Hid]. apply N.eqb_eq in Hid.
  unfold enqueue. simpl. rewrite refresh_run. simpl.
  now rewrite Hid, find_update_is_mastered, Hfind.
Qed.

(** X18: a saved phrase can be fetched by its id.  After [save_phrase]
    with an unused id, [get_phrase] on that id returns the phrase as it was
    returned by the save, and [get_phrase] on any other id returns what it
    returned before. *)
Theorem save_phrase_then_get_phrase
    (t : Tables) (new_id other user_id : uuid) (now : datetime)
    (phrase context category : string) :
  fresh_pk SavedPhrase.id new_id (saved_phrases t) ->
  other <> new_id ->
  exists p t',
    PhraseRepository.save_phrase new_id now user_id phrase context category
      (SessionLocal t [])
    = (Ok p, SessionLocal t' [])
    /\ PhraseRepository.get_phrase new_id (SessionLocal t' [])
       = (Ok (Some p), SessionLocal t' [])
    /\ fst (PhraseRepository.get_phrase other (SessionLocal t' []))
       = fst (PhraseRepository.get_phrase other (SessionLocal t [])).
Proof.
  intros Hfresh Hother.
  set (p := SavedPhrase.mk new_id user_id phrase context category false now).
  exists p, (with_saved_phrases (saved_phrases t ++ [p]) t).
  split; [now apply save_phrase_run|].
  unfold SessionLocal. rewrite !get_phrase_run. simpl. split.
  - rewrite find_app_miss by (now apply find_fresh_pk). simpl.
    unfold has_pk. simpl. now rewrite N.eqb_refl.
  - f_equal.
    destruct (find (has_pk SavedPhrase.id other) (saved_phrases t)) as [r|] eqn:E.
    + now apply find_app_hit.
    + rewrite find_app_miss by exact E. simpl. unfold has_pk. simpl.
      replace (N.eqb new_id other) with false; [reflexivity|].
      symmetry. apply N.eqb_neq. congruence.
Qed.

Lemma save_phrase_then_get_phrase_witness :
  exists p t',
    PhraseRepository.save_phrase 23%N 400 1%N "as a result" "cause" "transition"
      (SessionLocal Examples.tables0 [])
    = (Ok p, SessionLocal t' [])
    /\ PhraseRepository.get_phrase 23%N (SessionLocal t' [])
       = (Ok (Some p), SessionLocal t' [])
    /\ fst (PhraseRepository.get_phrase 21%N (SessionLocal t' []))
       = fst (PhraseRepository.get_phrase 21%N (SessionLocal Examples.tables0 [])).
Proof.
  apply (save_phrase_then_get_phrase Examples.tables0 23%N 21%N 1%N 400
           "as a result" "cause" "transition").
  - intros r [<-|[<-|[<-|[]]]]; discriminate.
  - discriminate.
Defined.

(** X19: deleting a phrase.  When some stored phrase has the id,
    [delete_phrase] returns [True] and removes it: the remaining phrases
    are the stored ones with another id, in their order, and the other
    tables are untouched.  Afterwards the id finds nothing, leaves every
    user's list, cannot be given a mastered flag (no resurrection), and a
    second delete returns [False]. *)
Theorem delete_phrase_removes (t : Tables) (phrase_id owner : uuid) (b : bool) :
  (exists p, In p (saved_phrases t) /\ SavedPhrase.id p = phrase_id) ->
  exists t',
    PhraseRepository.delete_phrase phrase_id (SessionLocal t [])
    = (Ok true, SessionLocal t' [])
    /\ saved_phrases t'
       = filter (fun p => negb (N.eqb (SavedPhrase.id p) phrase_id)) (saved_phrases t)
    /\ users t' = users t
    /\ sessions t' = sessions t
    /\ practice_sessions t' = practice_sessions t
    /\ PhraseRepository.get_phrase phrase_id (SessionLocal t' [])
       = (Ok None, SessionLocal t' [])
    /\ (forall l, fst (PhraseRepository.get_user_phrases owner (SessionLocal t' []))
                  = Ok l ->
                  forall p, In p l -> SavedPhrase.id p <> phrase_id)
    /\ PhraseRepository.update_mastered_status phrase_id b (SessionLocal t' [])
       = (Ok None, SessionLocal t' [])
    /\ PhraseRepository.delete_phrase phrase_id (SessionLocal t' [])
       = (Ok false, SessionLocal t' []).
Proof.
  intros (p & Hin & Hid).
  destruct (find (has_pk SavedPhrase.id phrase_id) (saved_phrases t))
    as [p0|] eqn:Hfind.
  2:{ apply (find_none _ _ Hfind) in Hin. apply N.eqb_neq in Hin. contradiction. }
  pose proof (find_some _ _ Hfind) as [_ Hid0]. apply N.eqb_eq in Hid0.
  set (t' := with_saved_phrases
               (delete_row SavedPhrase.id phrase_id (saved_phrases t)) t).
  assert (Hgone : find (has_pk SavedPhrase.id phrase_id) (saved_phrases t') = None).
  { apply find_none_iff. intros r Hr. simpl in Hr.
    apply In_delete_row in Hr as [_ Hr]. now apply N.eqb_neq. }
  exists t'.
  split; [rewrite delete_phrase_run, Hfind, Hid0; reflexivity|].
  split; [reflexivity|]. do 3 (split; [reflexivity|]).
  split; [unfold SessionLocal; now rewrite get_phrase_run, Hgone|].
  split.
  { intros l Hl. unfold SessionLocal in Hl. rewrite get_user_phrases_run in Hl.
    injection Hl as <-. intros r Hr.
    apply In_user_phrases_query in Hr as [Hr _]. simpl in Hr.
    now apply In_delete_row in Hr. }
  split.
  - now rewrite update_mastered_status_run, Hgone.
  - now rewrite delete_phrase_run, Hgone.
Qed.

Lemma delete_phrase_removes_witness :
  exists t',
    PhraseRepository.delete_phrase 20%N (SessionLocal Examples.tables0 [])
    = (Ok true, SessionLocal t' [])
    /\ saved_phrases t'
       = filter (fun p => negb (N.eqb (SavedPhrase.id p) 20%N))
           (saved_phrases Examples.tables0)
    /\ users t' = users Examples.tables0
    /\ sessions t' = sessions Examples.tables0
    /\ practice_sessions t' = practice_sessions Examples.tables0
    /\ PhraseRepository.get_phrase 20%N (SessionLocal t' [])
       = (Ok None, SessionLocal t' [])
    /\ (forall l, fst (PhraseRepository.get_user_phrases 1%N (SessionLocal t' []))
                  = Ok l ->
                  forall p, In p l -> SavedPhrase.id p <> 20%N)
    /\ PhraseRepository.update_mastered_status 20%N true (SessionLocal t' [])
       = (Ok None, SessionLocal t' [])
    /\ PhraseRepository.delete_phrase 20%N (SessionLocal t' [])
       = (Ok false, SessionLocal t' []).
Proof.
  apply (delete_phrase_removes Examples.tables0 20%N 1%N true).
  exists (Examples.phrase_of 20%N 1%N "on the other hand" false 100).
  split; [simpl; auto | reflexivity].
Defined.

(** X20: an id no stored phrase has is "not found" everywhere.
    [get_phrase] and [update_mastered_status] return [None],
    [delete_phrase] returns [False], and none of them changes the store or
    issues a commit. *)
Theorem missing_phrase_is_not_found (t : Tables) (phrase_id : uuid) (b : bool) :
  fresh_pk SavedPhrase.id phrase_id (saved_phrases t) ->
  PhraseRepository.get_phrase phrase_id (SessionLocal t [])
  = (Ok None, SessionLocal t [])
  /\ PhraseRepository.update_mastered_status phrase_id b (SessionLocal t [])
     = (Ok None, SessionLocal t [])
  /\ PhraseRepository.delete_phrase phrase_id (SessionLocal t [])
     = (Ok false, SessionLocal t [])
  /\ (forall fl,
         PhraseRepository.update_mastered_status phrase_id b
           (SessionLocal t (None :: fl))
         = (Ok None, SessionLocal t fl)
         /\ PhraseRepository.delete_phrase phrase_id (SessionLocal t (None :: fl))
            = (Ok false, SessionLocal t fl)).
Proof.
  intros Hfresh. apply find_fresh_pk in Hfresh.
  split; [unfold SessionLocal; now rewrite get_phrase_run, Hfresh|].
  split; [now rewrite update_mastered_status_run, Hfresh|].
  split; [now rewrite delete_phrase_run, Hfresh|].
  intros fl.
  unfold PhraseRepository.update_mastered_status, PhraseRepository.delete_phrase,
    PhraseRepository.get_phrase, bind, query_first, roundtrip, SessionLocal.
  simpl. now rewrite Hfresh.
Qed.

Lemma missing_phrase_is_not_found_witness :
  PhraseRepository.get_phrase 99%N (SessionLocal Examples.tables0 [])
  = (Ok None, SessionLocal Examples.tables0 [])
  /\ PhraseRepository.update_mastered_status 99%N true
       (SessionLocal Examples.tables0 [])
     = (Ok None, SessionLocal Examples.tables0 [])
  /\ PhraseRepository.delete_phrase 99%N (SessionLocal Examples.tables0 [])
     = (Ok false, SessionLocal Examples.tables0 [])
  /\ (forall fl,
         PhraseRepository.update_mastered_status 99%N true
           (SessionLocal Examples.tables0 (None :: fl))
         = (Ok None, SessionLocal Examples.tables0 fl)
         /\ PhraseRepository.delete_phrase 99%N
              (SessionLocal Examples.tables0 (None :: fl))
            = (Ok false, SessionLocal Examples.tables0 fl)).
Proof.
  apply (missing_phrase_is_not_found Examples.tables0 99%N true).
  intros r [<-|[<-|[<-|[]]]]; discriminate.
Defined.

Lemma update_is_mastered_twice (i : uuid) (b1 b2 : bool) (tbl : list SavedPhrase.t) :
  update_is_mastered i b2 (update_is_mastered i b1 tbl)
  = update_is_mastered i b2 tbl.
Proof.
  unfold update_is_mastered. rewrite map_map. apply map_ext. intros p.
  destruct (has_pk SavedPhrase.id i p) eqn:E.
  - now rewrite has_pk_set_is_mastered, E.
  - now rewrite E.
Qed.

(** X21: the mastered flag is last-write-wins.  For an id some stored
    phrase has, setting the flag to [b1] and then to [b2] returns the same
    phrase and leaves the same store as setting it to [b2] at once; in
    particular setting the same value twice is the same as setting it
    once. *)
Theorem update_mastered_status_last_write_wins
    (t : Tables) (phrase_id : uuid) (b1 b2 : bool) :
  (exists p, In p (saved_phrases t) /\ SavedPhrase.id p = phrase_id) ->
  exists p1 p2 t1 t2,
    PhraseRepository.update_mastered_status phrase_id b1 (SessionLocal t [])
    = (Ok (Some p1), SessionLocal t1 [])
    /\ PhraseRepository.update_mastered_status phrase_id b2 (SessionLocal t1 [])
       = (Ok (Some p2), SessionLocal t2 [])
    /\ PhraseRepository.update_mastered_status phrase_id b2 (SessionLocal t [])
       = (Ok (Some p2), SessionLocal t2 [])
    /\ SavedPhrase.is_mastered p2 = b2.
Proof.
  intros (p & Hin & Hid).
  destruct (find (has_pk SavedPhrase.id phrase_id) (saved_phrases t))
    as [p0|] eqn:Hfind.
  2:{ apply (find_none _ _ Hfind) in Hin. apply N.eqb_neq in Hin. contradiction. }
  set (t1 := with_saved_phrases
               (update_is_mastered phrase_id b1 (saved_phrases t)) t).
  exists (set_is_mastered b1 p0), (set_is_mastered b2 p0), t1,
    (with_saved_phrases (update_is_mastered phrase_id b2 (saved_phrases t)) t).
  split; [now rewrite update_mastered_status_run, Hfind|].
  split; [|split; [now rewrite update_mastered_status_run, Hfind | reflexivity]].
  rewrite update_mastered_status_run. simpl.
  rewrite find_update_is_mastered, Hfind. simpl.
  unfold with_saved_phrases. simpl. now rewrite update_is_mastered_twice.
Qed.

Lemma update_mastered_status_last_write_wins_witness :
  exists p1 p2 t1 t2,
    PhraseRepository.update_mastered_status 22%N false
      (SessionLocal Examples.tables0 [])
    = (Ok (Some p1), SessionLocal t1 [])
    /\ PhraseRepository.update_mastered_status 22%N true (SessionLocal t1 [])
       = (Ok (Some p2), SessionLocal t2 [])
    /\ PhraseRepository.update_mastered_status 22%N true
         (SessionLocal Examples.tables0 [])
       = (Ok (Some p2), SessionLocal t2 [])
    /\ SavedPhrase.is_mastered p2 = true.
Proof.
  apply (update_mastered_status_last_write_wins Examples.tables0 22%N false true).
  exists (Examples.phrase_of 22%N 1%N "to sum up" true 300).
  split; [simpl; auto | reflexivity].
Defined.

Lemma insert_desc_map {X} (key : X -> Z) (f : X -> X) (x : X) (l : list X) :
  (forall y, key (f y) = key y) ->
  insert_desc key (f x) (map f l) = map f (insert_desc key x l).
Proof.
  intros Hkey. induction l as [|y l IH]; simpl; [reflexivity|].
  rewrite !Hkey. destruct (key y <=? key x); simpl; [reflexivity|].
  now rewrite IH.
Qed.

Lemma order_by_desc_map {X} (key : X -> Z) (f : X -> X) (l : list X) :
  (forall y, key (f y) = key y) ->
  order_by_desc key (map f l) = map f (order_by_desc key l).
Proof.
  intros Hkey. induction l as [|x l IH]; simpl; [reflexivity|].
  now rewrite IH, insert_desc_map.
Qed.

Lemma filter_map_commute {X} (g : X -> bool) (f : X -> X) (l : list X) :
  (forall y, g (f y) = g y) -> filter g (map f l) = map f (filter g l).
Proof.
  intros Hg. induction l as [|x l IH]; simpl; [reflexivity|].
  rewrite Hg. destruct (g x); simpl; now rewrite IH.
Qed.

(** X22: changing a mastered flag never reshuffles a list.  For an id
    some stored phrase has, and a user whose phrases have distinct creation
    times, [get_user_phrases] after [update_mastered_status] is that
    user's list from before, position by position, with the flag set on the
    phrase that has the id, in whatever storage order the update leaves the
    rows. *)
Theorem update_mastered_status_keeps_listing
    (t : Tables) (phrase_id owner : uuid) (b : bool) :
  (exists p, In p (saved_phrases t) /\ SavedPhrase.id p = phrase_id) ->
  NoDup (map SavedPhrase.created_at
           (filter (fun p => N.eqb (SavedPhrase.user_id p) owner)
              (saved_phrases t))) ->
  exists p' t' before,
    PhraseRepository.update_mastered_status phrase_id b (SessionLocal t [])
    = (Ok (Some p'), SessionLocal t' [])
    /\ PhraseRepository.get_user_phrases owner (SessionLocal t [])
       = (Ok before, SessionLocal t [])
    /\ forall t'',
         Permutation (saved_phrases t'') (saved_phrases t') ->
         PhraseRepository.get_user_phrases owner (SessionLocal t'' [])
         = (Ok (map (fun p =>
                       if N.eqb (SavedPhrase.id p) phrase_id
                       then SavedPhrase.mk (SavedPhrase.id p)
                              (SavedPhrase.user_id p) (SavedPhrase.phrase p)
                              (SavedPhrase.context p) (SavedPhrase.category p)
                              b (SavedPhrase.created_at p)
                       else p)
                  before),
            SessionLocal t'' []).
Proof.
  intros (p & Hin & Hid) Hnd.
  destruct (find (has_pk SavedPhrase.id phrase_id) (saved_phrases t))
    as [p0|] eqn:Hfind.
  2:{ apply (find_none _ _ Hfind) in Hin. apply N.eqb_neq in Hin. contradiction. }
  set (f := fun p => if has_pk SavedPhrase.id phrase_id p
                     then set_is_mastered b p else p).
  assert (Hkey : forall y, SavedPhrase.created_at (f y) = SavedPhrase.created_at y).
  { intros y. unfold f. now destruct (has_pk SavedPhrase.id phrase_id y). }
  assert (Hown : forall y, N.eqb (SavedPhrase.user_id (f y)) owner
                           = N.eqb (SavedPhrase.user_id y) owner).
  { intros y. unfold f. now destruct (has_pk SavedPhrase.id phrase_id y). }
  do 3 eexists.
  split; [now rewrite update_mastered_status_run, Hfind|].
  split; [apply get_user_phrases_run|].
  intros t'' Hperm. unfold SessionLocal. rewrite get_user_phrases_run.
  do 2 f_equal.
  unfold PhraseRepository.user_phrases_query.
  simpl in Hperm. unfold update_is_mastered in Hperm. fold f in Hperm.
  rewrite <- (order_by_desc_map SavedPhrase.created_at f) by exact Hkey.
  rewrite <- (filter_map_commute _ f) by exact Hown.
  symmetry. apply order_by_desc_unique.
  - rewrite filter_map_commute by exact Hown.
    rewrite map_map. rewrite (map_ext _ SavedPhrase.created_at) by exact Hkey.
    exact Hnd.
  - apply Permutation_filter_same. now symmetry.
Qed.

Lemma update_mastered_status_keeps_listing_witness :
  exists p' t' before,
    PhraseRepository.update_mastered_status 20%N true
      (SessionLocal Examples.tables0 [])
    = (Ok (Some p'), SessionLocal t' [])
    /\ PhraseRepository.get_user_phrases 1%N (SessionLocal Examples.tables0 [])
       = (Ok before, SessionLocal Examples.tables0 [])
    /\ forall t'',
         Permutation (saved_phrases t'') (saved_phrases t') ->
         PhraseRepository.get_user_phrases 1%N (SessionLocal t'' [])
         = (Ok (map (fun p =>
                       if N.eqb (SavedPhrase.id p) 20%N
                       then SavedPhrase.mk (SavedPhrase.id p)
                              (SavedPhrase.user_id p) (SavedPhrase.phrase p)
                              (SavedPhrase.context p) (SavedPhrase.category p)
                              true (SavedPhrase.created_at p)
                       else p)
                  before),
            SessionLocal t'' []).
Proof.
  apply (update_mastered_status_keeps_listing Examples.tables0 20%N 1%N true).
  - exists (Examples.phrase_of 20%N 1%N "on the other hand" false 100).
    split; [simpl; auto | reflexivity].
  - simpl. repeat constructor; simpl; intuition discriminate.
Defined.



(** X24: [get_phrase] and the stored rows.  Whenever [get_phrase] returns
    a phrase (under any fault schedule) that phrase is stored and has the
    requested id; and with distinct phrase ids every stored phrase is
    returned for its own id. *)
Theorem get_phrase_finds_stored (t : Tables) (p : SavedPhrase.t) :
  (forall i fl r db',
      PhraseRepository.get_phrase i (SessionLocal t fl) = (Ok (Some r), db') ->
      In r (saved_phrases t) /\ SavedPhrase.id r = i)
  /\ (NoDup (map SavedPhrase.id (saved_phrases t)) ->
      In p (saved_phrases t) ->
      PhraseRepository.get_phrase (SavedPhrase.id p) (SessionLocal t [])
      = (Ok (Some p), SessionLocal t [])).
Proof.
  split.
  - intros i fl r db' H. unfold PhraseRepository.get_phrase in H.
    apply query_first_ok_inv in H as (H & _ & _). symmetry in H. simpl in H.
    apply find_some in H as [Hin Hid]. now apply N.eqb_eq in Hid.
  - intros Hnd Hin. unfold SessionLocal.
    now rewrite get_phrase_run, (find_by_pk SavedPhrase.id _ p Hnd Hin).
Qed.

Lemma get_phrase_finds_stored_witness :
  PhraseRepository.get_phrase 21%N (SessionLocal Examples.tables0 [])
  = (Ok (Some (Examples.phrase_of 21%N 2%N "for instance" false 200)),
     SessionLocal Examples.tables0 []).
Proof.
  apply (proj2 (get_phrase_finds_stored Examples.tables0
                  (Examples.phrase_of 21%N 2%N "for instance" false 200))).
  - simpl. repeat constructor; simpl; intuition discriminate.
  - simpl. auto.
Defined.

(** X25: a rollback cannot undo a commit.  When a known user logs in with
    an unused session id and the store fails only on the final reload of
    the Session row, [simple_login] answers 500 although the Session row
    has been committed: the row is stored and nothing is queued. *)
Theorem simple_login_failed_reload_keeps_session
    (str_uuid : uuid -> string) (t : Tables) (u : User.t)
    (new_user_id new_session_id : uuid) (session_token : string)
    (utcnow : datetime) (request : SimpleLoginRequest.t)
    (msg : string) (fl : list (option string)) :
  resolve_user t (SimpleLoginRequest.user_id request) = Some u ->
  fresh_pk DBSession.id new_session_id (sessions t) ->
  simple_login str_uuid new_user_id new_session_id session_token utcnow request
    (SessionLocal t (None :: None :: Some msg :: fl))
  = (Raise (HTTPException 500 ("Login failed: " ++ msg)%string),
     SessionLocal
       (with_sessions
          (sessions t
             ++ [DBSession.mk new_session_id (User.id u) session_token
                   (utcnow + timedelta_days 30)]) t)
       fl).
Proof.
  intros Hres Hfresh. unfold resolve_user in Hres.
  unfold simple_login, try_except, create_or_get_user, bind, query_first,
    roundtrip, SessionLocal. simpl.
  rewrite Hres. simpl.
  unfold commit, refresh, bind, roundtrip. simpl.
  rewrite (insert_row_fresh DBSession.id
             (DBSession.mk new_session_id (User.id u) session_token
                (utcnow + timedelta_days 30))) by exact Hfresh.
  reflexivity.
Qed.

Lemma simple_login_failed_reload_keeps_session_witness :
  simple_login Examples.str_uuid 3%N 12%N "tok-alice-2" 50
    (SimpleLoginRequest.mk "alice")
    (SessionLocal Examples.tables0 [None; None; Some "connection lost"])
  = (Raise (HTTPException 500 "Login failed: connection lost"),
     SessionLocal
       (with_sessions
          (sessions Examples.tables0
             ++ [DBSession.mk 12%N 1%N "tok-alice-2" (50 + timedelta_days 30)])
          Examples.tables0)
       []).
Proof.
  apply (simple_login_failed_reload_keeps_session Examples.str_uuid
           Examples.tables0 Examples.alice 3%N 12%N "tok-alice-2" 50
           (SimpleLoginRequest.mk "alice") "connection lost" []).
  - reflexivity.
  - intros s [<-|[<-|[]]]; discriminate.
Defined.

Lemma commit_raise_inv (db db' : Db) (e : exn) :
  commit db = (Raise e, db') -> exists m, e = Exception m.
Proof.
  intros H. apply bind_raise_inv in H as [H|([] & db1 & _ & H)].
  - now apply roundtrip_raise_inv in H.
  - destruct (flush (pending db1) (tables db1)); [discriminate|].
    injection H as <- _. eauto.
Qed.

Lemma get_current_user_raise_inv (tok : option string) (now : datetime)
    (db db' : Db) (e : exn) :
  get_current_user tok now db = (Raise e, db') -> exists m, e = Exception m.
Proof.
  unfold get_current_user.
  destruct tok as [[|c tok]|]; try discriminate.
  intros H. apply bind_raise_inv in H as [H|(session & db1 & _ & H)];
    [now apply query_first_raise_inv in H|].
  destruct session as [s|]; [|discriminate].
  destruct (DBSession.expires_at s <? now).
  - apply bind_raise_inv in H as [H|([] & db2 & _ & H)]; [discriminate|].
    apply bind_raise_inv in H as [H|([] & db3 & _ & H)];
      [now apply commit_raise_inv in H | discriminate].
  - now apply query_first_raise_inv in H.
Qed.

(** X26: how the session endpoints fail.  Under any fault schedule, an
    error of [verify_session] is the 401 "Invalid or expired session" or an
    exception of the store passed on as it is, and an error of [logout] is
    always an exception of the store passed on as it is: unlike
    [simple_login] and the archive endpoints, neither converts store
    failures into an HTTP error. *)
Theorem session_endpoint_failures
    (str_uuid : uuid -> string) (tok : string) (now : datetime)
    (db db' : Db) (e : exn) :
  (verify_session str_uuid tok now db = (Raise e, db') ->
   e = HTTPException 401 "Invalid or expired session"
   \/ exists m, e = Exception m)
  /\ (logout tok db = (Raise e, db') -> exists m, e = Exception m).
Proof.
  split.
  - unfold verify_session. intros H.
    apply bind_raise_inv in H as [H|(user & db1 & _ & H)].
    + right. now apply get_current_user_raise_inv in H.
    + destruct user; [discriminate|]. injection H as <- _. now left.
  - unfold logout. intros H.
    apply bind_raise_inv in H as [H|(session & db1 & _ & H)];
      [now apply query_first_raise_inv in H|].
    destruct session as [s|]; [|discriminate].
    apply bind_raise_inv in H as [H|([] & db2 & _ & H)]; [discriminate|].
    apply bind_raise_inv in H as [H|([] & db3 & _ & H)];
      [now apply commit_raise_inv in H | discriminate].
Qed.

Lemma session_endpoint_failures_witness :
  (HTTPException 401 "Invalid or expired session"
   = HTTPException 401 "Invalid or expired session"
   \/ exists m, HTTPException 401 "Invalid or expired session" = Exception m)
  /\ exists m, Exception "connection lost" = Exception m.
Proof.
  split.
  - exact (proj1 (session_endpoint_failures Examples.str_uuid "tok-mallory" 5
                    (SessionLocal Examples.tables0 [])
                    (SessionLocal Examples.tables0 [])
                    (HTTPException 401 "Invalid or expired session"))
             eq_refl).
  - exact (proj2 (session_endpoint_failures Examples.str_uuid "tok-alice" 5
                    (SessionLocal Examples.tables0 [None; Some "connection lost"])
                    (mkDb Examples.tables0
                       [DeleteSession Examples.alice_session] [])
                    (Exception "connection lost"))
             eq_refl).
Defined.
